(** * Session lifecycle of the video-sharing backend

    A shallow embedding of the request handlers of
    [src/controllers/user.controller.js], the access gate of
    [src/middlewares/auth.middleware.js], and the helpers they rely on
    ([utils/ApiError.js], [utils/ApiResponse.js], [utils/asyncHandler.js],
    [utils/cloudinary.js]).

    JavaScript values are modelled as follows.
    - A string is a [string]; each character is one code unit in the
      range U+0000..U+00FF.
    - A value that may be [undefined] (a request field, a cookie, a
      property of an object) is an [option]; [None] is [undefined].
    - An [async] function that may [throw] is a computation in the monad
      [M]: it receives the database, returns either the thrown error or
      its result, and the database as it left it. Writes made before a
      [throw] stay written. *)

From Stdlib Require Import String Ascii List ZArith Bool Arith.
From Stdlib Require Import DecimalString.
Import ListNotations.
Local Open Scope string_scope.
Local Open Scope list_scope.

(* ===================================================================== *)
(** ** JavaScript primitives used by the handlers *)
(* ===================================================================== *)

Module Js.

(** [!!v] for a value that is a string or [undefined]: the empty string
    and [undefined] are falsy. *)
Definition truthy (v : option string) : bool :=
  match v with
  | Some s => negb (s =? "")
  | None => false
  end.

(** The string behind a truthy value. *)
Definition nonEmpty (v : option string) : option string :=
  match v with
  | Some s => if s =? "" then None else Some s
  | None => None
  end.

(** [a || b]. *)
Definition orElse (a b : option string) : option string :=
  if truthy a then a else b.

(** [a || d] where [d] is a string literal. *)
Definition orDefault (a : option string) (d : string) : string :=
  match a with
  | Some s => if s =? "" then d else s
  | None => d
  end.

(** [n || d] for a number that may be [undefined]; [0] is falsy. *)
Definition orNumber (n : option Z) (d : Z) : Z :=
  match n with
  | Some z => if (z =? 0)%Z then d else z
  | None => d
  end.

(** [a === b] on values that are strings or [undefined]. *)
Definition strictEq (a b : option string) : bool :=
  match a, b with
  | Some x, Some y => x =? y
  | None, None => true
  | _, _ => false
  end.

(** WhiteSpace and LineTerminator code units below U+0100:
    TAB, LF, VT, FF, CR, SP and NBSP. *)
Definition isWhiteSpace (c : ascii) : bool :=
  let n := nat_of_ascii c in
  (((9 <=? n) && (n <=? 13)) || (n =? 32) || (n =? 160))%nat.

Fixpoint trimStart (s : string) : string :=
  match s with
  | EmptyString => EmptyString
  | String c s' => if isWhiteSpace c then trimStart s' else s
  end.

Fixpoint trimEnd (s : string) : string :=
  match s with
  | EmptyString => EmptyString
  | String c s' =>
      let t := trimEnd s' in
      if isWhiteSpace c && (t =? "") then EmptyString else String c t
  end.

(** [String.prototype.trim]. *)
Definition trim (s : string) : string := trimEnd (trimStart s).

(** Lower-case mapping of one code unit: A-Z, and the upper-case
    letters of U+00C0..U+00DE (U+00D7 is the multiplication sign). *)
Definition lowerChar (c : ascii) : ascii :=
  let n := nat_of_ascii c in
  if (((65 <=? n) && (n <=? 90))
      || ((192 <=? n) && (n <=? 222) && negb (n =? 215)))%nat
  then ascii_of_nat (n + 32)
  else c.

(** [String.prototype.toLowerCase]. *)
Fixpoint toLowerCase (s : string) : string :=
  match s with
  | EmptyString => EmptyString
  | String c s' => String (lowerChar c) (toLowerCase s')
  end.

Fixpoint drop (n : nat) (s : string) : string :=
  match n, s with
  | O, _ => s
  | S n', String _ s' => drop n' s'
  | S _, EmptyString => EmptyString
  end.

(** [s.replace(pat, rep)] with a string pattern: only the first
    occurrence is replaced. *)
Fixpoint replace (pat rep s : string) : string :=
  if prefix pat s then rep ++ drop (String.length pat) s
  else match s with
       | EmptyString => EmptyString
       | String c s' => String c (replace pat rep s')
       end.

(** A plain object whose properties hold strings, as returned by
    [generateAccessAndRefreshTokens]; reading a property that the
    object does not have gives [undefined]. *)
Definition Object := list (string * string).

Fixpoint getProp (name : string) (o : Object) : option string :=
  match o with
  | [] => None
  | (k, v) :: o' => if k =? name then Some v else getProp name o'
  end.

End Js.

(* ===================================================================== *)
(** ** Errors and responses *)
(* ===================================================================== *)

(** An error object. [ApiError] (utils/ApiError.js) sets [statusCode],
    [message] and [errors]; it never sets a property called [status].
    Errors of other libraries carry a [name] and a [message]. The
    [errors] payload and the stack are read by no handler and are left
    out. *)
Record JsError : Type := mkJsError {
  e_name : string;
  e_status : option Z;
  e_statusCode : option Z;
  e_message : option string
}.

(** [new ApiError(statusCode, message)]; [message] defaults to
    "Something went wrong" when it is [undefined]. *)
Definition ApiError_new (statusCode : Z) (message : option string) : JsError :=
  {| e_name := "Error";
     e_status := None;
     e_statusCode := Some statusCode;
     e_message := Some (match message with
                        | Some m => m
                        | None => "Something went wrong"
                        end) |}.

Definition ApiError (statusCode : Z) (message : string) : JsError :=
  ApiError_new statusCode (Some message).

(** The error raised by the runtime when a property of [undefined] is
    read or a method of [undefined] is called. *)
Definition TypeError : JsError :=
  {| e_name := "TypeError"; e_status := None; e_statusCode := None;
     e_message := Some "Cannot read properties of undefined" |}.

(** The projection [.select("-password -refreshToken")] of a user
    document. *)
Record SafeUser : Type := mkSafeUser {
  s_id : nat;
  s_username : string;
  s_email : string;
  s_fullName : string;
  s_avatar : string;
  s_coverImage : string
}.

(** The [data] payloads the handlers put in an [ApiResponse]. *)
Inductive Data : Type :=
| DNull
| DUser (user : SafeUser)
| DLogin (user : option SafeUser) (accessToken refreshToken : option string)
| DTokens (accessToken refreshToken : option string).

(** utils/ApiResponse.js *)
Record ApiResponse : Type := mkApiResponse {
  r_statusCode : Z;
  r_data : Data;
  r_message : string;
  r_success : bool
}.

Definition ApiResponse_new (statusCode : Z) (data : Data) (message : string)
  : ApiResponse :=
  {| r_statusCode := statusCode;
     r_data := data;
     r_message := message;
     r_success := (statusCode <? 400)%Z |}.

(** [res.cookie(name, value, options)] and [res.clearCookie(name, options)];
    the options are [{httpOnly: true, secure: true}] at every call. *)
Inductive CookieOp : Type :=
| SetCookie (name : string) (value : option string)
| ClearCookie (name : string).

(** What a handler has sent: [res.status(..).cookie(..)...json(..)]. *)
Record Response : Type := mkResponse {
  status : Z;
  cookieOps : list CookieOp;
  json : ApiResponse
}.

Fixpoint cookieSet (name : string) (ops : list CookieOp) : option (option string) :=
  match ops with
  | [] => None
  | SetCookie n v :: ops' => if n =? name then Some v else cookieSet name ops'
  | ClearCookie _ :: ops' => cookieSet name ops'
  end.

(* ===================================================================== *)
(** ** Requests *)
(* ===================================================================== *)

Record Cookies : Type := mkCookies {
  c_accessToken : option string;
  c_refreshToken : option string
}.

(** The fields of [req.body] that the handlers read. *)
Record Body : Type := mkBody {
  b_fullName : option string;
  b_email : option string;
  b_username : option string;
  b_password : option string;
  b_refreshToken : option string;
  b_currentPassword : option string;
  b_newPassword : option string
}.

(** One uploaded file as the upload middleware describes it. *)
Record File : Type := mkFile { f_path : option string }.

Record Files : Type := mkFiles {
  f_avatar : option (list File);
  f_coverImage : option (list File)
}.

Record Request : Type := mkRequest {
  cookies : option Cookies;
  authorization : option string;   (* req.header("Authorization") *)
  body : Body;
  files : option Files;
  user : option SafeUser           (* req.user, bound by VerifyJWT *)
}.

Definition emptyBody : Body :=
  {| b_fullName := None; b_email := None; b_username := None;
     b_password := None; b_refreshToken := None;
     b_currentPassword := None; b_newPassword := None |}.

Definition set_user (req : Request) (u : SafeUser) : Request :=
  {| cookies := cookies req; authorization := authorization req;
     body := body req; files := files req; user := Some u |}.

(* ===================================================================== *)
(** ** The credential store *)
(* ===================================================================== *)

Definition Time := nat.

(** Modelled from the spec: the schema of the [User] model
    ([models/user.model.js] is not part of the sources). A principal
    has a handle, a contact address, a display name, a hashed secret, an
    avatar and a cover image reference, and the session anchor
    [refreshToken], which is [undefined] until the first login. *)
Record User : Type := mkUser {
  u_id : nat;
  u_username : string;
  u_email : string;
  u_fullName : string;
  u_password : string;
  u_avatar : string;
  u_coverImage : string;
  u_refreshToken : option string
}.

Definition set_refreshToken (u : User) (t : option string) : User :=
  {| u_id := u_id u; u_username := u_username u; u_email := u_email u;
     u_fullName := u_fullName u; u_password := u_password u;
     u_avatar := u_avatar u; u_coverImage := u_coverImage u;
     u_refreshToken := t |}.

Definition set_password (u : User) (p : string) : User :=
  {| u_id := u_id u; u_username := u_username u; u_email := u_email u;
     u_fullName := u_fullName u; u_password := p;
     u_avatar := u_avatar u; u_coverImage := u_coverImage u;
     u_refreshToken := u_refreshToken u |}.

Definition select (u : User) : SafeUser :=
  {| s_id := u_id u; s_username := u_username u; s_email := u_email u;
     s_fullName := u_fullName u; s_avatar := u_avatar u;
     s_coverImage := u_coverImage u |}.

(** The calls a handler makes on the [User] model, in order. *)
Inductive DbOp : Type :=
| OpFindById (id : option nat)
| OpFindOne (username email : option string)
| OpSave (id : nat)
| OpCreate
| OpFindByIdAndUpdate (id : nat).

(** The collection, in insertion order, and the log of the calls made
    on it. *)
Record World : Type := mkWorld {
  db : list User;
  dblog : list DbOp
}.

(** An asynchronous computation that may throw. *)
Definition M (A : Type) : Type := World -> (JsError + A) * World.

Definition ret {A} (a : A) : M A := fun w => (inr a, w).

Definition throw {A} (e : JsError) : M A := fun w => (inl e, w).

Definition bind {A B} (m : M A) (k : A -> M B) : M B :=
  fun w => match m w with
           | (inr a, w') => k a w'
           | (inl e, w') => (inl e, w')
           end.

(** [try { m } catch (error) { h error }] *)
Definition tryCatch {A} (m : M A) (h : JsError -> M A) : M A :=
  fun w => match m w with
           | (inr a, w') => (inr a, w')
           | (inl e, w') => h e w'
           end.

(** The value or the exception of a library call that touches no
    database. *)
Definition lift {A} (r : JsError + A) : M A := fun w => (r, w).

Definition logOp (op : DbOp) : M unit :=
  fun w => (inr tt, {| db := db w; dblog := dblog w ++ [op] |}).

Definition getDb : M (list User) := fun w => (inr (db w), w).

Definition putDb (l : list User) : M unit :=
  fun w => (inr tt, {| db := l; dblog := dblog w |}).

Declare Scope js_scope.
Delimit Scope js_scope with js.
Notation "x <- m ;; k" := (bind m (fun x => k))
  (at level 61, m at next level, right associativity) : js_scope.
Notation "m ;;; k" := (bind m (fun _ => k))
  (at level 61, right associativity) : js_scope.
Local Open Scope js_scope.

Module UserModel.

(** Modelled from the spec: the comparison of a handle in a filter with
    the handle of a stored document, which the schema of the [User]
    model decides ([models/user.model.js] is not part of the sources):
    "unique handle (case-insensitive comparison key)". Two handles are
    the same key when their lower-case forms are equal. *)
Definition handleKey (s : string) : string := Js.toLowerCase s.

Fixpoint lookupId (id : nat) (l : list User) : option User :=
  match l with
  | [] => None
  | u :: l' => if (u_id u =? id)%nat then Some u else lookupId id l'
  end.

(** Modelled from the spec: [findById(id) -> Principal?]. An
    [undefined] id finds nothing. *)
Definition findById (id : option nat) : M (option User) :=
  logOp (OpFindById id) ;;;
  l <- getDb ;;
  ret (match id with
       | Some i => lookupId i l
       | None => None
       end).

(** One branch [{username}] or [{email}] of the [$or] filter. Every
    stored document has both fields, so an [undefined] value matches
    none. *)
Definition matchesFilter (username email : option string) (u : User) : bool :=
  match username with
  | Some h => handleKey h =? handleKey (u_username u)
  | None => false
  end
  || match email with
     | Some e => e =? u_email u
     | None => false
     end.

(** Modelled from the spec: [findByIdentity(handleOrAddress) ->
    Principal?], called as [User.findOne({$or: [{username}, {email}]})]:
    the first document that matches on the handle or on the address. *)
Definition findOne (username email : option string) : M (option User) :=
  logOp (OpFindOne username email) ;;;
  l <- getDb ;;
  ret (find (matchesFilter username email) l).

Fixpoint replaceId (u : User) (l : list User) : list User :=
  match l with
  | [] => []
  | v :: l' => if (u_id v =? u_id u)%nat then u :: l' else v :: replaceId u l'
  end.

(** Modelled from the spec: [persistRefreshToken], called as
    [user.refreshToken = ...; user.save({validateBeforeSave: false})]:
    the stored document with the id of [u] becomes [u]. *)
Definition save (u : User) : M unit :=
  logOp (OpSave (u_id u)) ;;;
  l <- getDb ;;
  putDb (replaceId u l).

(** The error of the model when a document lacks a required path. *)
Definition ValidationError : JsError :=
  {| e_name := "ValidationError"; e_status := None; e_statusCode := None;
     e_message := Some "User validation failed" |}.

(** Modelled from the spec: [User.findByIdAndUpdate(id, {$set:
    {refreshToken: v}}, {new: true})]. *)
Definition findByIdAndUpdate_refreshToken (id : nat) (v : option string)
  : M (option User) :=
  logOp (OpFindByIdAndUpdate id) ;;;
  l <- getDb ;;
  match lookupId id l with
  | Some u =>
      putDb (replaceId (set_refreshToken u v) l) ;;;
      ret (Some (set_refreshToken u v))
  | None => ret None
  end.

Definition freshId (l : list User) : nat :=
  S (fold_right Nat.max 0 (map u_id l)).

(** The argument of [User.create]. *)
Record NewUser : Type := mkNewUser {
  n_fullName : option string;
  n_email : option string;
  n_username : string;
  n_password : option string;
  n_avatar : option string;
  n_coverImage : string
}.

End UserModel.

(** The libraries and the environment the handlers are linked with:
    the token library, the signing keys of [process.env], the methods
    of a user document, and the media host. *)
Class Platform : Type := mkPlatform {
  ACCESS_TOKEN_SECRET : string;
  REFRESH_TOKEN_SECRET : string;
  (** [jwt.verify(token, secret)] at a given time: the decoded payload,
      which may be falsy, with its [_id] claim, which may be absent; or
      the error thrown for a bad signature, a malformed or an expired
      token. *)
  jwt_verify : Time -> string -> string -> JsError + option (option nat);
  (** [user.generateAccessToken()] and [user.generateRefreshToken()]. *)
  generateAccessToken : User -> Time -> string;
  generateRefreshToken : User -> Time -> string;
  (** [user.isPasswordCorrect(password)]. *)
  isPasswordCorrect : User -> option string -> JsError + bool;
  (** The one-way hash the model applies to a secret before storing it. *)
  hashPassword : string -> string;
  (** [cloudinary.uploader.upload(path)]: the [url] of the response, or
      [None] when the call is rejected. *)
  cloudinary_upload : string -> option string
}.

Module UserHooks.
Import UserModel.

Section WithPlatform.
Context {P : Platform}.

(** Modelled from the spec: "created on registration (after uniqueness
    check passes and secret is hashed)". [User.create(doc)] rejects a
    document that lacks its display name, address, secret or avatar;
    otherwise it appends the document under a fresh id, with the
    secret hashed and no refresh token. *)
Definition create (d : NewUser) : M User :=
  logOp OpCreate ;;;
  match n_fullName d, n_email d, n_password d, n_avatar d with
  | Some fullName, Some email, Some password, Some avatar =>
      l <- getDb ;;
      let u := {| u_id := freshId l;
                  u_username := n_username d;
                  u_email := email;
                  u_fullName := fullName;
                  u_password := hashPassword password;
                  u_avatar := avatar;
                  u_coverImage := n_coverImage d;
                  u_refreshToken := None |} in
      putDb (l ++ [u]) ;;;
      ret u
  | _, _, _, _ => throw ValidationError
  end.

(** Modelled from the spec: "Replace stored secret (re-hashed);
    persist.", called as [user.password = newPassword; user.save()]. *)
Definition savePassword (u : User) (newPassword : option string) : M unit :=
  logOp (OpSave (u_id u)) ;;;
  match newPassword with
  | Some p =>
      l <- getDb ;;
      putDb (replaceId (set_password u (hashPassword p)) l)
  | None => throw ValidationError
  end.

End WithPlatform.
End UserHooks.

(* ===================================================================== *)
(** ** utils/cloudinary.js and utils/asyncHandler.js *)
(* ===================================================================== *)

(** What [uploadOnCloudinary] hands back: the response of the media
    host, or the [ApiError] object it returns (without throwing) when it
    is given no path. Both are objects, hence truthy. *)
Inductive Uploaded : Type :=
| UploadResponse (url : string)
| UploadRefused (e : JsError).

(** [obj.url] *)
Definition url_of (a : Uploaded) : option string :=
  match a with
  | UploadResponse url => Some url
  | UploadRefused _ => None
  end.

(** How a wrapped handler ends: with its own result (a response sent, or
    [next()] called with the request), or with [next(err)]. *)
Inductive Outcome (A : Type) : Type :=
| Done (a : A)
| NextErr (err : JsError).
Arguments Done {A} a.
Arguments NextErr {A} err.

(** [Promise.resolve(requestHandler(req, res, next)).catch((err) => next(err))] *)
Definition asyncHandler {A} (requestHandler : M A) : World -> Outcome A * World :=
  fun w => match requestHandler w with
           | (inr a, w') => (Done a, w')
           | (inl err, w') => (NextErr err, w')
           end.

Section Handlers.
Context {P : Platform}.
Import UserModel UserHooks.

Definition uploadRejected : JsError :=
  {| e_name := "Error"; e_status := None; e_statusCode := None;
     e_message := Some "upload rejected" |}.

Definition uploadOnCloudinary (localFilePath : option string) : M Uploaded :=
  tryCatch
    (match Js.nonEmpty localFilePath with
     | None => ret (UploadRefused (ApiError 401 "localfilePath not found"))
     | Some path =>
         url <- lift (match cloudinary_upload path with
                      | Some url => inr url
                      | None => inl uploadRejected
                      end) ;;
         ret (UploadResponse url)
     end)
    (fun error => throw (ApiError 500 "cloudinary error")).

(* ===================================================================== *)
(** ** controllers/user.controller.js *)
(* ===================================================================== *)

Definition generateAccessAndRefreshTokens (now : Time) (userId : nat)
  : M Js.Object :=
  tryCatch
    (user <- findById (Some userId) ;;
     match user with
     | None =>
         throw (ApiError 404
                  "USER NOT FOUND FROM generateAccessAndRefreshTokens FUNCTION")
     | Some user =>
         let accessToken := generateAccessToken user now in
         let refreshToken := generateRefreshToken user now in
         let user := set_refreshToken user (Some refreshToken) in
         save user ;;;
         ret [("accessToken", accessToken); ("refreshToken", refreshToken)]
     end)
    (fun error =>
       throw (ApiError 500
                "SOMETHING WENT WRONG WHILE GENERATING ACCESS AND REFRESH TOKENS")).

(** [field?.trim() === ""] *)
Definition isBlank (field : option string) : bool :=
  Js.strictEq (option_map Js.trim field) (Some "").

(** [req.files?.avatar[0]?.path] *)
Definition avatarPath (req : Request) : M (option string) :=
  match files req with
  | None => ret None
  | Some fs =>
      match f_avatar fs with
      | None => throw TypeError
      | Some l => ret (match nth_error l 0 with
                       | Some f => f_path f
                       | None => None
                       end)
      end
  end.

(** [let coverImageLocalPath; if (req.files &&
    Array.isArray(req.files.coverImage) && req.files.coverImage[0].path)
    coverImageLocalPath = req.files.coverImage[0].path] *)
Definition coverImagePath (req : Request) : M (option string) :=
  match files req with
  | None => ret None
  | Some fs =>
      match f_coverImage fs with
      | None => ret None
      | Some l =>
          match nth_error l 0 with
          | None => throw TypeError
          | Some f => ret (if Js.truthy (f_path f) then f_path f else None)
          end
      end
  end.

Definition registerUser (req : Request) : M Response :=
  let fullName := b_fullName (body req) in
  let email := b_email (body req) in
  let username := b_username (body req) in
  let password := b_password (body req) in
  if existsb isBlank [fullName; email; username; password]
  then throw (ApiError 400 "ALL FIELDS ARE REQUIRED")
  else
    existedUser <- findOne username email ;;
    match existedUser with
    | Some _ => throw (ApiError 409 "USER ALREADY EXISTS")
    | None =>
        avatarLocalPath <- avatarPath req ;;
        coverImageLocalPath <- coverImagePath req ;;
        if negb (Js.truthy avatarLocalPath)
        then throw (ApiError 400 "AVATAR LOCAL PATH IS REQUIRED")
        else
          avatar <- uploadOnCloudinary avatarLocalPath ;;
          coverImage <- uploadOnCloudinary coverImageLocalPath ;;
          (* [if (!avatar)]: an [Uploaded] is an object, never falsy *)
          lowered <- match username with
                     | Some s => ret (Js.toLowerCase s)
                     | None => throw TypeError
                     end ;;
          user <- create {| n_fullName := fullName;
                            n_email := email;
                            n_username := lowered;
                            n_password := password;
                            n_avatar := url_of avatar;
                            n_coverImage := Js.orDefault (url_of coverImage) "" |} ;;
          createdUser <- findById (Some (u_id user)) ;;
          match createdUser with
          | None => throw (ApiError 500 "USER NOT CREATED")
          | Some created =>
              ret {| status := 200;
                     cookieOps := [];
                     json := ApiResponse_new 200 (DUser (select created))
                               "USER CREATED" |}
          end
    end.

Definition loginUser (now : Time) (req : Request) : M Response :=
  let username := b_username (body req) in
  let email := b_email (body req) in
  let password := b_password (body req) in
  if negb (Js.truthy username) && negb (Js.truthy email)
  then throw (ApiError 400 "USERNAME OR EMAIL IS REQUIRED")
  else
    user <- findOne username email ;;
    match user with
    | None => throw (ApiError 404 "USER NOT FOUND")
    | Some user =>
        isPasswordValid <- lift (isPasswordCorrect user password) ;;
        if negb isPasswordValid
        then throw (ApiError 400 "INCORRECT PASSWORD")
        else
          tokens <- generateAccessAndRefreshTokens now (u_id user) ;;
          let accessToken := Js.getProp "accessToken" tokens in
          let refreshToken := Js.getProp "refreshToken" tokens in
          loggedInUser <- findById (Some (u_id user)) ;;
          ret {| status := 200;
                 cookieOps := [SetCookie "accessToken" accessToken;
                               SetCookie "refreshToken" refreshToken];
                 json := ApiResponse_new 200
                           (DLogin (option_map select loggedInUser)
                                   accessToken refreshToken)
                           "USER LOGGED IN SUCCESSFULLY" |}
    end.

Definition logOutUser (req : Request) : M Response :=
  match user req with
  | None => throw TypeError
  | Some u =>
      findByIdAndUpdate_refreshToken (s_id u) (Some "") ;;;
      ret {| status := 200;
             cookieOps := [ClearCookie "accessToken";
                           ClearCookie "refreshToken"];
             json := ApiResponse_new 200 DNull "USER LOGGED OUT SUCCESSFULLY" |}
  end.

Definition refreshAccessToken (now : Time) (req : Request) : M Response :=
  match cookies req with
  | None => throw TypeError
  | Some jar =>
      match Js.nonEmpty (Js.orElse (c_refreshToken jar)
                                   (b_refreshToken (body req))) with
      | None => throw (ApiError 401 "Refresh token missing. Please log in again.")
      | Some incomingRefreshToken =>
          tryCatch
            (decodedToken <- lift (jwt_verify now incomingRefreshToken
                                              REFRESH_TOKEN_SECRET) ;;
             match decodedToken with
             | None =>
                 throw (ApiError 401 "Invalid refresh token. Please log in again.")
             | Some claim_id =>
                 user <- findById claim_id ;;
                 match user with
                 | None =>
                     throw (ApiError 404 "User not found. Please log in again.")
                 | Some user =>
                     if negb (Js.strictEq (u_refreshToken user)
                                          (Some incomingRefreshToken))
                     then throw (ApiError 403
                                   "Refresh token mismatch. Please log in again.")
                     else
                       tokens <- generateAccessAndRefreshTokens now (u_id user) ;;
                       let accessToken := Js.getProp "accessToken" tokens in
                       let newRefreshToken := Js.getProp "newRefreshToken" tokens in
                       ret {| status := 200;
                              cookieOps := [SetCookie "accessToken" accessToken;
                                            SetCookie "refreshToken" newRefreshToken];
                              json := ApiResponse_new 200
                                        (DTokens accessToken newRefreshToken)
                                        "Access token successfully refreshed." |}
                 end
             end)
            (fun error =>
               throw (ApiError 401
                        "Token refresh failed. Please try logging in again."))
      end
  end.

Definition changeCurrentpassword (req : Request) : M Response :=
  let currentPassword := b_currentPassword (body req) in
  let newPassword := b_newPassword (body req) in
  match user req with
  | None => throw TypeError
  | Some requester =>
      user <- findById (Some (s_id requester)) ;;
      match user with
      | None => throw TypeError
      | Some user =>
          isPasswordMatch <- lift (isPasswordCorrect user currentPassword) ;;
          if negb isPasswordMatch
          then throw (ApiError 400 "INCORRECT PASSWORD")
          else
            savePassword user newPassword ;;;
            ret {| status := 200;
                   cookieOps := [];
                   json := ApiResponse_new 200 DNull
                             "PASSWORD CHANGED SUCCESSFULLY" |}
      end
  end.

(* ===================================================================== *)
(** ** middlewares/auth.middleware.js *)
(* ===================================================================== *)

(** [req.cookies?.accessToken ||
     req.header("Authorization")?.replace("Bearer ", "")] *)
Definition accessTokenOf (req : Request) : option string :=
  Js.orElse (match cookies req with
             | Some jar => c_accessToken jar
             | None => None
             end)
            (option_map (Js.replace "Bearer " "") (authorization req)).

(** The body of [VerifyJWT]; on success it binds the principal to the
    request and calls [next()]. *)
Definition VerifyJWT (now : Time) (req : Request) : M Request :=
  tryCatch
    (match Js.nonEmpty (accessTokenOf req) with
     | None => throw (ApiError 401 "UNAUTHORIZED")
     | Some token =>
         decodedtoken <- lift (jwt_verify now token ACCESS_TOKEN_SECRET) ;;
         user <- findById (match decodedtoken with
                           | Some claim_id => claim_id
                           | None => None
                           end) ;;
         match user with
         | None => throw (ApiError 404 "INVALID ACCESS TOKEN")
         | Some user => ret (set_user req (select user))
         end
     end)
    (fun error =>
       throw (ApiError (Js.orNumber (e_status error) 500)
                       (Js.orDefault (e_message error) "INTERNAL SERVER ERROR"))).

End Handlers.

(* ===================================================================== *)
(** ** The rejections of the refresh handler, by name *)
(* ===================================================================== *)

(** Thrown before the [try] block (line 199). *)
Definition refreshMissing : JsError :=
  ApiError 401 "Refresh token missing. Please log in again.".

(** Thrown by the [catch] block (line 252). *)
Definition refreshFailed : JsError :=
  ApiError 401 "Token refresh failed. Please try logging in again.".

(** Thrown inside the [try] block (lines 211, 218 and 223). *)
Definition refreshInvalid : JsError :=
  ApiError 401 "Invalid refresh token. Please log in again.".

Definition refreshUserNotFound : JsError :=
  ApiError 404 "User not found. Please log in again.".

Definition refreshMismatch : JsError :=
  ApiError 403 "Refresh token mismatch. Please log in again.".

(* ===================================================================== *)
(** ** A small platform to run the handlers on *)
(* ===================================================================== *)

Module Demo.

Definition nat_str (n : nat) : string := NilZero.string_of_uint (Nat.to_uint n).

(** A token is the signing key, the principal id and the time of issue. *)
Definition sign (secret : string) (id : nat) (iat : Time) : string :=
  secret ++ "." ++ nat_str id ++ "." ++ nat_str iat.

Definition lifetime : nat := 10.

Definition JsonWebTokenError : JsError :=
  {| e_name := "JsonWebTokenError"; e_status := None; e_statusCode := None;
     e_message := Some "invalid signature" |}.

Definition TokenExpiredError : JsError :=
  {| e_name := "TokenExpiredError"; e_status := None; e_statusCode := None;
     e_message := Some "jwt expired" |}.

(** Verification searches the tokens this key can have signed so far,
    for principals 0..7. *)
Definition verify (now : Time) (token secret : string)
  : JsError + option (option nat) :=
  match find (fun c => token =? sign secret (fst c) (snd c))
             (list_prod (seq 0 8) (seq 0 (S now))) with
  | Some (id, iat) =>
      if (now <? iat + lifetime)%nat then inr (Some (Some id))
      else inl TokenExpiredError
  | None => inl JsonWebTokenError
  end.

Definition hash (p : string) : string := "h(" ++ p ++ ")".

Definition compareError : JsError :=
  {| e_name := "Error"; e_status := None; e_statusCode := None;
     e_message := Some "data and hash arguments required" |}.

Definition platform : Platform :=
  {| ACCESS_TOKEN_SECRET := "ak";
     REFRESH_TOKEN_SECRET := "rk";
     jwt_verify := verify;
     generateAccessToken := fun u now => sign "ak" (u_id u) now;
     generateRefreshToken := fun u now => sign "rk" (u_id u) now;
     isPasswordCorrect := fun u p =>
       match p with
       | Some s => inr (hash s =? u_password u)
       | None => inl compareError
       end;
     hashPassword := hash;
     cloudinary_upload := fun path => Some ("https://media.example/" ++ path)%string |}.

Definition alice : User :=
  {| u_id := 1; u_username := "alice"; u_email := "alice@example.com";
     u_fullName := "Alice A"; u_password := hash "wonderland";
     u_avatar := "https://media.example/a.png"; u_coverImage := "";
     u_refreshToken := None |}.

Definition bob : User :=
  {| u_id := 2; u_username := "bob"; u_email := "bob@example.com";
     u_fullName := "Bob B"; u_password := hash "builder";
     u_avatar := "https://media.example/b.png"; u_coverImage := "";
     u_refreshToken := None |}.

Definition world0 : World := {| db := [alice; bob]; dblog := [] |}.

Definition request (jar : option Cookies) (b : Body) : Request :=
  {| cookies := jar; authorization := None; body := b; files := None;
     user := None |}.

Definition noCookies : Cookies :=
  {| c_accessToken := None; c_refreshToken := None |}.

Definition loginBody (username password : option string) : Body :=
  {| b_fullName := None; b_email := None; b_username := username;
     b_password := password; b_refreshToken := None;
     b_currentPassword := None; b_newPassword := None |}.

Definition aliceLogin : Request :=
  request (Some noCookies) (loginBody (Some "alice") (Some "wonderland")).

Definition refreshWith (token : string) : Request :=
  request (Some {| c_accessToken := None; c_refreshToken := Some token |})
          emptyBody.

Definition asAlice (b : Body) : Request :=
  {| cookies := Some noCookies; authorization := None; body := b;
     files := None; user := Some (select alice) |}.

(** A registration request with the four text fields and one avatar
    file. *)
Definition registration (fullName email username password : option string)
  : Request :=
  {| cookies := Some noCookies;
     authorization := None;
     body := {| b_fullName := fullName; b_email := email;
                b_username := username; b_password := password;
                b_refreshToken := None; b_currentPassword := None;
                b_newPassword := None |};
     files := Some {| f_avatar := Some [{| f_path := Some "tmp/avatar.png" |}];
                      f_coverImage := None |};
     user := None |}.

(** The world after Alice has logged in at time [t]. *)
Definition loggedIn (t : Time) : World :=
  snd (loginUser (P := platform) t aliceLogin world0).

End Demo.

(* ===================================================================== *)
(** ** The remaining handlers of controllers/user.controller.js *)
(* ===================================================================== *)

Definition set_avatar (u : User) (url : string) : User :=
  {| u_id := u_id u; u_username := u_username u; u_email := u_email u;
     u_fullName := u_fullName u; u_password := u_password u;
     u_avatar := url; u_coverImage := u_coverImage u;
     u_refreshToken := u_refreshToken u |}.

Definition set_coverImage (u : User) (url : string) : User :=
  {| u_id := u_id u; u_username := u_username u; u_email := u_email u;
     u_fullName := u_fullName u; u_password := u_password u;
     u_avatar := u_avatar u; u_coverImage := url;
     u_refreshToken := u_refreshToken u |}.

Definition set_profile (u : User) (fullName email : string) : User :=
  {| u_id := u_id u; u_username := u_username u; u_email := email;
     u_fullName := fullName; u_password := u_password u;
     u_avatar := u_avatar u; u_coverImage := u_coverImage u;
     u_refreshToken := u_refreshToken u |}.

(** The projection [.select("-password")] of a user document: all but
    the secret, the refresh value included. *)
Record AccountView : Type := mkAccountView {
  v_user : SafeUser;
  v_refreshToken : option string
}.

Definition selectSansPassword (u : User) : AccountView :=
  {| v_user := select u; v_refreshToken := u_refreshToken u |}.

(** What [UpdateAccountDetails] sends: the status of the response and
    the [ApiResponse] in its body, whose [data] is the updated document
    without its secret, or [null]. *)
Record AccountResponse : Type := mkAccountResponse {
  a_status : Z;
  a_statusCode : Z;
  a_data : option AccountView;
  a_message : string;
  a_success : bool
}.

Module UserUpdates.
Import UserModel.

(** Modelled from the spec: [User.findByIdAndUpdate(id, {$set: ...},
    {new: true})] of the [User] model ([models/user.model.js] is not
    part of the sources). The stored document with this id gets the
    fields set and is returned as updated; with no such document nothing
    is written and the result is [null]. [set] keeps the id. *)
Definition findByIdAndUpdate (id : nat) (set : User -> User) : M (option User) :=
  logOp (OpFindByIdAndUpdate id) ;;;
  l <- getDb ;;
  match lookupId id l with
  | Some u =>
      putDb (replaceId (set u) l) ;;;
      ret (Some (set u))
  | None => ret None
  end.

(** The error of the database when a write would give two documents the
    same value under a unique index. *)
Definition DuplicateKeyError : JsError :=
  {| e_name := "MongoServerError"; e_status := None; e_statusCode := None;
     e_message := Some "E11000 duplicate key error" |}.

(** Modelled from the spec: "unique contact address". The update of
    [fullName] and [email] is refused when another document already has
    this address. *)
Definition findByIdAndUpdate_profile (id : nat) (fullName email : string)
  : M (option User) :=
  logOp (OpFindByIdAndUpdate id) ;;;
  l <- getDb ;;
  match lookupId id l with
  | Some u =>
      if existsb (fun v => negb (u_id v =? id)%nat && (u_email v =? email)) l
      then throw DuplicateKeyError
      else
        putDb (replaceId (set_profile u fullName email) l) ;;;
        ret (Some (set_profile u fullName email))
  | None => ret None
  end.

End UserUpdates.

Section MoreHandlers.
Context {P : Platform}.
Import UserModel UserHooks UserUpdates.

(** [new ApiResponse(200, req.user, ...)]: an [undefined] payload takes
    the default of the constructor, [null]. *)
Definition getCurrentUser (req : Request) : M Response :=
  ret {| status := 200;
         cookieOps := [];
         json := ApiResponse_new 200
                   (match user req with
                    | Some u => DUser u
                    | None => DNull
                    end)
                   "USER DATA FETCHED SUCCESSFULLY" |}.

Definition UpdateAccountDetails (req : Request) : M AccountResponse :=
  match Js.nonEmpty (b_fullName (body req)), Js.nonEmpty (b_email (body req)) with
  | Some fullName, Some email =>
      match user req with
      | None => throw TypeError
      | Some requester =>
          updatedUser <- findByIdAndUpdate_profile (s_id requester)
                           fullName email ;;
          ret {| a_status := 200;
                 a_statusCode := 200;
                 a_data := option_map selectSansPassword updatedUser;
                 a_message := "ACCOUNT DETAILS UPDATED SUCCESSFULLY";
                 a_success := (200 <? 400)%Z |}
      end
  | _, _ => throw (ApiError 400 "Validation Error")
  end.

(** The data of the two image handlers: the updated document, projected,
    or [null] when there is none. *)
Definition updatedData (updateUser : option User) : Data :=
  match updateUser with
  | Some u => DUser (select u)
  | None => DNull
  end.

(** [file] is [req.file], set by the upload middleware of the route. *)
Definition updateUserAvatar (file : option File) (req : Request) : M Response :=
  let avatarLocalPath := match file with
                         | Some f => f_path f
                         | None => None
                         end in
  if negb (Js.truthy avatarLocalPath)
  then throw (ApiError 400 "Please select an image")
  else
    avatar <- uploadOnCloudinary avatarLocalPath ;;
    match Js.nonEmpty (url_of avatar) with
    | None => throw (ApiError 500 "Cloudinary error")
    | Some url =>
        match user req with
        | None => throw TypeError
        | Some requester =>
            updateUser <- findByIdAndUpdate (s_id requester)
                            (fun u => set_avatar u url) ;;
            ret {| status := 200;
                   cookieOps := [];
                   json := ApiResponse_new 200 (updatedData updateUser)
                             "AVATAR UPDATED SUCCESSFULLY" |}
        end
    end.

Definition updateUserCoverImage (file : option File) (req : Request)
  : M Response :=
  let coverImageLocalPath := match file with
                             | Some f => f_path f
                             | None => None
                             end in
  if negb (Js.truthy coverImageLocalPath)
  then throw (ApiError 400 "Please select an image")
  else
    coverImage <- uploadOnCloudinary coverImageLocalPath ;;
    match Js.nonEmpty (url_of coverImage) with
    | None => throw (ApiError 500 "Cloudinary error")
    | Some url =>
        match user req with
        | None => throw TypeError
        | Some requester =>
            updateUser <- findByIdAndUpdate (s_id requester)
                            (fun u => set_coverImage u url) ;;
            ret {| status := 200;
                   cookieOps := [];
                   json := ApiResponse_new 200 (updatedData updateUser)
                             "COVER IMAGE UPDATED SUCCESSFULLY" |}
        end
    end.

(* ===================================================================== *)
(** ** routes/user.route.js *)
(* ===================================================================== *)

(** [router.route(path).post(VerifyJWT, handler)]: the handler runs on
    the request as the gate left it, and only when the gate called
    [next()]; an error of the gate goes to the error middleware. *)
Definition secured {A} (now : Time) (handler : Request -> M A) (req : Request)
  : World -> Outcome A * World :=
  fun w => match asyncHandler (VerifyJWT now req) w with
           | (Done req', w') => asyncHandler (handler req') w'
           | (NextErr err, w') => (NextErr err, w')
           end.

Definition logoutRoute (now : Time) := secured now logOutUser.
Definition refreshTokenRoute (now : Time) := secured now (refreshAccessToken now).
Definition changePasswordRoute (now : Time) := secured now changeCurrentpassword.
Definition currentUserRoute (now : Time) := secured now getCurrentUser.
Definition updateAccountDetailsRoute (now : Time) := secured now UpdateAccountDetails.
Definition updateAvatarRoute (now : Time) (file : option File) :=
  secured now (updateUserAvatar file).
Definition updateCoverImageRoute (now : Time) (file : option File) :=
  secured now (updateUserCoverImage file).

End MoreHandlers.

(** Requests and worlds to run the remaining handlers on. *)
Module Scenario.

Definition withAccessCookie (token : string) (b : Body) : Request :=
  {| cookies := Some {| c_accessToken := Some token; c_refreshToken := None |};
     authorization := None; body := b; files := None; user := None |}.

Definition withBearer (token : string) (b : Body) : Request :=
  {| cookies := Some Demo.noCookies;
     authorization := Some ("Bearer " ++ token)%string;
     body := b; files := None; user := None |}.

Definition bothTokens (access refresh : string) : Request :=
  {| cookies := Some {| c_accessToken := Some access;
                        c_refreshToken := Some refresh |};
     authorization := None; body := emptyBody; files := None; user := None |}.

Definition profileBody (fullName email : option string) : Body :=
  {| b_fullName := fullName; b_email := email; b_username := None;
     b_password := None; b_refreshToken := None;
     b_currentPassword := None; b_newPassword := None |}.

Definition passwordBody (current new : option string) : Body :=
  {| b_fullName := None; b_email := None; b_username := None;
     b_password := None; b_refreshToken := None;
     b_currentPassword := current; b_newPassword := new |}.


Definition carol : Request :=
  Demo.registration (Some "Carol C") (Some "carol@example.com")
                    (Some "Carol") (Some "pw").

Definition carolAgain : Request :=
  Demo.registration (Some "Carol D") (Some "other@example.com")
                    (Some "CAROL") (Some "pw2").

Definition carolLogin : Request :=
  Demo.request (Some Demo.noCookies) (Demo.loginBody (Some "CaRoL") (Some "pw")).

Definition noFiles (req : Request) : Request :=
  {| cookies := cookies req; authorization := authorization req;
     body := body req; files := None; user := user req |}.

End Scenario.

(* ===================================================================== *)
(** ** The aggregations of controllers/user.controller.js *)
(* ===================================================================== *)

(** A document of the [subscriptions] collection, with the two fields
    the pipeline joins on. *)
Record Subscription : Type := mkSubscription {
  sub_subscriber : nat;
  sub_channel : nat
}.

(** The document the pipeline of [getUserChannelprofile] projects. *)
Record ChannelProfile : Type := mkChannelProfile {
  p_id : nat;
  p_fullName : string;
  p_username : string;
  p_email : string;
  p_subscribersCount : nat;
  p_channelsSubscribedToCount : nat;
  p_isSubscribed : bool;
  p_coverImage : string;
  p_avatar : string
}.

(** What [getUserChannelprofile] sends. *)
Record ChannelResponse : Type := mkChannelResponse {
  cr_status : Z;
  cr_statusCode : Z;
  cr_data : ChannelProfile;
  cr_message : string;
  cr_success : bool
}.

Section Aggregations.

(** [$match: { username: username?.toLowerCase() }]; a pipeline is sent
    as it is written, so the comparison is equality of strings. *)
Definition matchUsername (username : option string) (l : list User) : list User :=
  filter (fun u => Js.strictEq (Some (u_username u))
                               (option_map Js.toLowerCase username)) l.

(** [$lookup] from [subscriptions] with [localField: "_id"] and
    [foreignField: "channel"], as [subscribers]. *)
Definition lookupSubscribers (subscriptions : list Subscription) (u : User)
  : list Subscription :=
  filter (fun s => (sub_channel s =? u_id u)%nat) subscriptions.

(** [$lookup] from [subscriptions] with [foreignField: "subscriber"], as
    [subscribedTo]. *)
Definition lookupSubscribedTo (subscriptions : list Subscription) (u : User)
  : list Subscription :=
  filter (fun s => (sub_subscriber s =? u_id u)%nat) subscriptions.

(** [$addFields] and [$project]; [viewer] is [req.user?._id]. *)
Definition channelDocument (subscriptions : list Subscription)
  (viewer : option nat) (u : User) : ChannelProfile :=
  let subscribers := lookupSubscribers subscriptions u in
  let subscribedTo := lookupSubscribedTo subscriptions u in
  {| p_id := u_id u;
     p_fullName := u_fullName u;
     p_username := u_username u;
     p_email := u_email u;
     p_subscribersCount := List.length subscribers;
     p_channelsSubscribedToCount := List.length subscribedTo;
     p_isSubscribed :=
       match viewer with
       | Some id => existsb (fun s => (sub_subscriber s =? id)%nat) subscribers
       | None => false
       end;
     p_coverImage := u_coverImage u;
     p_avatar := u_avatar u |}.

(** [username] is [req.params.username]; [subscriptions] is the
    [subscriptions] collection the pipeline reads. *)
Definition getUserChannelprofile (subscriptions : list Subscription)
  (username : option string) (req : Request) : M ChannelResponse :=
  if negb (Js.truthy (option_map Js.trim username))
  then throw (ApiError 400 "Please provide username")
  else
    l <- getDb ;;
    let channel := map (channelDocument subscriptions
                          (option_map s_id (user req)))
                       (matchUsername username l) in
    match channel with
    | [] => throw (ApiError 404 "Channel not found")
    | first :: _ =>
        ret {| cr_status := 200;
               cr_statusCode := 200;
               cr_data := first;
               cr_message := "CHANNEL FETCHED SUCCESSFULLY";
               cr_success := (200 <? 400)%Z |}
    end.

(** [const user = User.aggregate([...])] is not awaited: [user] is the
    aggregation object, not its result, so [user[0]] is [undefined] and
    reading [watchhistory] from it throws; the pipeline is never run.
    Building the pipeline reads [req.user._id] first. *)
Definition getWatchHistory (req : Request) : M Response :=
  match user req with
  | None => throw TypeError
  | Some _ => throw TypeError
  end.

End Aggregations.

Section AggregationRoutes.
Context {P : Platform}.

Definition channelProfileRoute (now : Time) (subscriptions : list Subscription)
  (username : option string) :=
  secured now (getUserChannelprofile subscriptions username).

Definition watchHistoryRoute (now : Time) := secured now getWatchHistory.

End AggregationRoutes.

Module Channel.

Definition subscriptions : list Subscription :=
  [ {| sub_subscriber := 2; sub_channel := 1 |};
    {| sub_subscriber := 1; sub_channel := 2 |};
    {| sub_subscriber := 3; sub_channel := 1 |} ].

Definition asBob : Request :=
  {| cookies := Some Demo.noCookies; authorization := None; body := emptyBody;
     files := None; user := Some (select Demo.bob) |}.

End Channel.

(* ===================================================================== *)
(** ** Proof automation *)
(* ===================================================================== *)

(** Case analysis on an innermost scrutinee of the goal. *)
Ltac case_scrutinee :=
  match goal with
  | |- context [match ?x with _ => _ end] =>
      lazymatch x with
      | context [match _ with _ => _ end] => fail
      | _ => first [is_var x; destruct x | destruct x eqn:?]
      end
  end.

(* ===================================================================== *)
(** ** Facts about the store *)
(* ===================================================================== *)

Section StoreFacts.
Import UserModel.

Lemma lookupId_id (id : nat) (l : list User) (u : User) :
  lookupId id l = Some u -> u_id u = id.
Proof.
  induction l as [|v l IH]; simpl; [discriminate|].
  destruct (Nat.eqb_spec (u_id v) id) as [E|E]; intros H.
  - injection H as <-. exact E.
  - auto.
Qed.

Lemma lookupId_replaceId_same (u v : User) (l : list User) :
  lookupId (u_id u) l = Some v ->
  lookupId (u_id u) (replaceId u l) = Some u.
Proof.
  induction l as [|x l IH]; simpl; [discriminate|].
  destruct (Nat.eqb_spec (u_id x) (u_id u)) as [E|E]; intros H; simpl.
  - now rewrite Nat.eqb_refl.
  - destruct (Nat.eqb_spec (u_id x) (u_id u)); [contradiction|auto].
Qed.

Lemma lookupId_replaceId_other (u : User) (l : list User) (id : nat) :
  id <> u_id u ->
  lookupId id (replaceId u l) = lookupId id l.
Proof.
  intros N. induction l as [|x l IH]; simpl; [reflexivity|].
  destruct (Nat.eqb_spec (u_id x) (u_id u)) as [E|E]; simpl.
  - destruct (Nat.eqb_spec (u_id u) id); [congruence|].
    destruct (Nat.eqb_spec (u_id x) id); [congruence|reflexivity].
  - destruct (Nat.eqb_spec (u_id x) id); [reflexivity|exact IH].
Qed.

Lemma replaceId_absent (u : User) (l : list User) :
  lookupId (u_id u) l = None -> replaceId u l = l.
Proof.
  induction l as [|x l IH]; simpl; [reflexivity|].
  destruct (Nat.eqb_spec (u_id x) (u_id u)); [discriminate|].
  intros H. now rewrite IH.
Qed.

Lemma nonEmpty_Some (v : option string) (s : string) :
  Js.nonEmpty v = Some s -> v = Some s /\ s <> "".
Proof.
  destruct v as [t|]; simpl; [|discriminate].
  destruct (String.eqb_spec t ""); [discriminate|].
  intros H; injection H as <-. auto.
Qed.

Lemma strictEq_true (a b : option string) :
  Js.strictEq a b = true <-> a = b.
Proof.
  destruct a as [x|], b as [y|]; simpl; split; try congruence; try reflexivity.
  - intros H. apply String.eqb_eq in H. now subst.
  - intros H. injection H as ->. apply String.eqb_refl.
Qed.

End StoreFacts.

(* ===================================================================== *)
(** ** Token minting *)
(* ===================================================================== *)

Section MintFacts.
Context {P : Platform}.
Import UserModel UserHooks.

(** What one call of [generateAccessAndRefreshTokens] does. *)
Lemma mint_run (now : Time) (uid : nat) (w : World) :
  generateAccessAndRefreshTokens now uid w =
  match lookupId uid (db w) with
  | Some u =>
      (inr [("accessToken", generateAccessToken u now);
            ("refreshToken", generateRefreshToken u now)],
       {| db := replaceId
                  (set_refreshToken u (Some (generateRefreshToken u now)))
                  (db w);
          dblog := (dblog w ++ [OpFindById (Some uid)]) ++ [OpSave (u_id u)] |})
  | None =>
      (inl (ApiError 500
              "SOMETHING WENT WRONG WHILE GENERATING ACCESS AND REFRESH TOKENS"),
       {| db := db w; dblog := dblog w ++ [OpFindById (Some uid)] |})
  end.
Proof.
  unfold generateAccessAndRefreshTokens, tryCatch, findById, save, bind,
    logOp, getDb, putDb, ret, throw; simpl.
  destruct (lookupId uid (db w)); reflexivity.
Qed.

(** A successful mint overwrites the stored refresh value, whatever it
    was, with the one it returns. *)
Lemma mint_overwrites (now : Time) (uid : nat) (w w' : World) (tokens : Js.Object) :
  generateAccessAndRefreshTokens now uid w = (inr tokens, w') ->
  exists u rt,
    lookupId uid (db w) = Some u /\
    Js.getProp "refreshToken" tokens = Some rt /\
    lookupId uid (db w') = Some (set_refreshToken u (Some rt)).
Proof.
  rewrite mint_run. destruct (lookupId uid (db w)) as [u|] eqn:L; [|discriminate].
  intros H; injection H as <- <-.
  exists u, (generateRefreshToken u now).
  split; [reflexivity|]. split; [reflexivity|].
  simpl. pose proof (lookupId_id _ _ _ L) as Hid.
  rewrite <- Hid in L |- *.
  exact (lookupId_replaceId_same
           (set_refreshToken u (Some (generateRefreshToken u now))) u (db w) L).
Qed.

End MintFacts.

(* ===================================================================== *)
(** ** Refresh (rotation) *)
(* ===================================================================== *)

Section RefreshFacts.
Context {P : Platform}.
Import UserModel UserHooks.

(** The handler, with its [try]/[catch] resolved: what it returns for
    each way the steps can go. *)
Lemma refresh_run (now : Time) (req : Request) (w : World) :
  refreshAccessToken now req w =
  match cookies req with
  | None => (inl TypeError, w)
  | Some jar =>
      match Js.nonEmpty (Js.orElse (c_refreshToken jar)
                                   (b_refreshToken (body req))) with
      | None => (inl refreshMissing, w)
      | Some incoming =>
          match jwt_verify now incoming REFRESH_TOKEN_SECRET with
          | inl _ => (inl refreshFailed, w)
          | inr None => (inl refreshFailed, w)
          | inr (Some claim_id) =>
              let w1 := {| db := db w;
                           dblog := dblog w ++ [OpFindById claim_id] |} in
              match match claim_id with
                    | Some i => lookupId i (db w)
                    | None => None
                    end with
              | None => (inl refreshFailed, w1)
              | Some u =>
                  if Js.strictEq (u_refreshToken u) (Some incoming)
                  then
                    match generateAccessAndRefreshTokens now (u_id u) w1 with
                    | (inl _, w2) => (inl refreshFailed, w2)
                    | (inr tokens, w2) =>
                        (inr {| status := 200;
                                cookieOps :=
                                  [SetCookie "accessToken"
                                     (Js.getProp "accessToken" tokens);
                                   SetCookie "refreshToken"
                                     (Js.getProp "newRefreshToken" tokens)];
                                json := ApiResponse_new 200
                                          (DTokens
                                             (Js.getProp "accessToken" tokens)
                                             (Js.getProp "newRefreshToken" tokens))
                                          "Access token successfully refreshed." |},
                         w2)
                    end
                  else (inl refreshFailed, w1)
              end
          end
      end
  end.
Proof.
  unfold refreshAccessToken.
  destruct (cookies req) as [jar|]; [|reflexivity].
  destruct (Js.nonEmpty _) as [incoming|]; [|reflexivity].
  cbv beta iota zeta delta
    [tryCatch bind lift findById logOp getDb ret throw negb db dblog].
  destruct (jwt_verify now incoming REFRESH_TOKEN_SECRET) as [e|[claim_id|]];
    [reflexivity| |reflexivity].
  destruct w as [l lg].
  destruct (match claim_id with Some i => lookupId i l | None => None end)
    as [u|]; [|reflexivity].
  destruct (Js.strictEq (u_refreshToken u) (Some incoming)); [|reflexivity].
  destruct (generateAccessAndRefreshTokens now (u_id u) _) as [[e|tokens] w2];
    reflexivity.
Qed.

End RefreshFacts.

Section RefreshClaims.
Context {P : Platform}.
Import UserModel UserHooks.

(** C1 (the code departs from the claim). A refresh that succeeds mints
    a new pair and stores the new refresh value over the consumed one,
    but it does not hand the new refresh value to the caller: the
    handler reads a property [newRefreshToken] that the minted pair does
    not have, so the [refreshToken] cookie is set to [undefined] and the
    [refreshToken] field of the body is [undefined]; only the access
    token is returned. *)
Theorem refresh_success_returns_no_refresh_token
  (now : Time) (req : Request) (w w' : World) (resp : Response) :
  refreshAccessToken now req w = (inr resp, w') ->
  exists u incoming,
    lookupId (u_id u) (db w) = Some u /\
    u_refreshToken u = Some incoming /\
    lookupId (u_id u) (db w') =
      Some (set_refreshToken u (Some (generateRefreshToken u now))) /\
    cookieSet "accessToken" (cookieOps resp) =
      Some (Some (generateAccessToken u now)) /\
    cookieSet "refreshToken" (cookieOps resp) = Some None /\
    r_data (json resp) = DTokens (Some (generateAccessToken u now)) None.
Proof.
  rewrite refresh_run.
  destruct (cookies req) as [jar|]; [|discriminate].
  destruct (Js.nonEmpty _) as [incoming|]; [|discriminate].
  destruct (jwt_verify now incoming REFRESH_TOKEN_SECRET) as [e|[claim_id|]];
    try discriminate.
  cbv zeta.
  destruct (match claim_id with Some i => lookupId i (db w) | None => None end)
    as [u|] eqn:L; [|discriminate].
  destruct (Js.strictEq (u_refreshToken u) (Some incoming)) eqn:E; [|discriminate].
  assert (Lu : lookupId (u_id u) (db w) = Some u).
  { destruct claim_id as [i|]; [|discriminate].
    now rewrite (lookupId_id _ _ _ L). }
  rewrite mint_run. simpl db. rewrite Lu.
  intros H; injection H as <- <-.
  exists u, incoming. split; [exact Lu|].
  split; [now apply strictEq_true|].
  split; [|repeat split].
  simpl db.
  exact (lookupId_replaceId_same
           (set_refreshToken u (Some (generateRefreshToken u now))) u (db w) Lu).
Qed.

(** C2 (the code departs from the claim). Whatever goes wrong after the
    presence check - a bad signature, an expired token, a principal
    that no longer exists, a stored value that differs - the caller
    sees one and the same rejection, status 401 "Token refresh failed":
    the [catch] block replaces the 404 and the 403 thrown inside the
    [try]. Apart from the runtime error of a request without a cookie
    jar, the handler has two rejections, not four. *)
Theorem refresh_failures_collapse
  (now : Time) (req : Request) (w w' : World) (e : JsError) :
  refreshAccessToken now req w = (inl e, w') ->
  e = TypeError \/ e = refreshMissing \/ e = refreshFailed.
Proof.
  rewrite refresh_run.
  destruct (cookies req) as [jar|]; [|intros H; injection H as <- _; auto].
  destruct (Js.nonEmpty _) as [incoming|]; [|intros H; injection H as <- _; auto].
  destruct (jwt_verify now incoming REFRESH_TOKEN_SECRET) as [e0|[claim_id|]];
    try (intros H; injection H as <- _; now auto).
  cbv zeta.
  destruct (match claim_id with Some i => lookupId i (db w) | None => None end)
    as [u|]; [|intros H; injection H as <- _; now auto].
  destruct (Js.strictEq _ _); [|intros H; injection H as <- _; now auto].
  destruct (generateAccessAndRefreshTokens _ _ _) as [[e1|tokens] w2];
    [intros H; injection H as <- _; now auto|discriminate].
Qed.

(** The mismatch of step 4 in particular: a signature-valid token of an
    existing principal whose stored value differs is answered with the
    generic 401, not with the 403 thrown at line 223. *)
Lemma refresh_mismatch_is_generic_401
  (now : Time) (req : Request) (w : World) (jar : Cookies)
  (token : string) (u : User) :
  cookies req = Some jar ->
  Js.nonEmpty (Js.orElse (c_refreshToken jar) (b_refreshToken (body req)))
    = Some token ->
  jwt_verify now token REFRESH_TOKEN_SECRET = inr (Some (Some (u_id u))) ->
  lookupId (u_id u) (db w) = Some u ->
  u_refreshToken u <> Some token ->
  refreshAccessToken now req w =
    (inl refreshFailed,
     {| db := db w; dblog := dblog w ++ [OpFindById (Some (u_id u))] |}).
Proof.
  intros Hc Ht Hv Hl Hne.
  rewrite refresh_run, Hc, Ht, Hv. cbv zeta. rewrite Hl.
  destruct (Js.strictEq _ _) eqn:E; [|reflexivity].
  apply strictEq_true in E. contradiction.
Qed.

End RefreshClaims.

Lemma refresh_success_returns_no_refresh_token_witness :
  exists resp w',
    refreshAccessToken (P := Demo.platform) 3 (Demo.refreshWith "rk.1.0")
      (Demo.loggedIn 0) = (inr resp, w') /\
    cookieSet "refreshToken" (cookieOps resp) = Some None /\
    r_data (json resp) = DTokens (Some "ak.1.3") None /\
    option_map u_refreshToken (UserModel.lookupId 1 (db w')) = Some (Some "rk.1.3").
Proof.
  eexists. eexists. split; [vm_compute; reflexivity|].
  edestruct (refresh_success_returns_no_refresh_token (P := Demo.platform)
               3 (Demo.refreshWith "rk.1.0") (Demo.loggedIn 0))
    as (u & incoming & _ & _ & _ & _ & Hcookie & _);
    [vm_compute; reflexivity|].
  split; [exact Hcookie|].
  split; vm_compute; reflexivity.
Defined.

Lemma refresh_failures_collapse_witness :
  exists w',
    refreshAccessToken (P := Demo.platform) 3 (Demo.refreshWith "rk.1.0")
      (Demo.loggedIn 1) = (inl refreshFailed, w') /\
    (refreshFailed = TypeError \/ refreshFailed = refreshMissing
     \/ refreshFailed = refreshFailed).
Proof.
  eexists. split; [vm_compute; reflexivity|].
  eapply (refresh_failures_collapse (P := Demo.platform)
            3 (Demo.refreshWith "rk.1.0") (Demo.loggedIn 1)).
  vm_compute; reflexivity.
Defined.

(* ===================================================================== *)
(** ** Logout *)
(* ===================================================================== *)

Section LogoutClaims.
Context {P : Platform}.
Import UserModel UserHooks.

Lemma logout_run (req : Request) (w : World) :
  logOutUser req w =
  match user req with
  | None => (inl TypeError, w)
  | Some p =>
      (inr {| status := 200;
              cookieOps := [ClearCookie "accessToken";
                            ClearCookie "refreshToken"];
              json := ApiResponse_new 200 DNull "USER LOGGED OUT SUCCESSFULLY" |},
       {| db := match lookupId (s_id p) (db w) with
                | Some u => replaceId (set_refreshToken u (Some "")) (db w)
                | None => db w
                end;
          dblog := dblog w ++ [OpFindByIdAndUpdate (s_id p)] |})
  end.
Proof.
  unfold logOutUser. destruct (user req) as [p|]; [|reflexivity].
  cbv beta iota zeta delta
    [bind findByIdAndUpdate_refreshToken logOp getDb putDb ret db dblog].
  destruct w as [l lg].
  destruct (lookupId (s_id p) l); reflexivity.
Qed.

(** C3, as amended. After a successful logout of principal P the stored
    refresh value of P is the empty string, and every refresh token
    issued for P (a token that verifies for P if it verifies at all),
    presented to the refresh operation at any time, within its lifetime
    or past it, is rejected: no pair is minted and the store is left as
    it was. *)
Theorem logout_revokes_refresh_tokens
  (req : Request) (w w1 : World) (resp : Response) :
  logOutUser req w = (inr resp, w1) ->
  exists p,
    user req = Some p /\
    (forall u, lookupId (s_id p) (db w) = Some u ->
               lookupId (s_id p) (db w1) = Some (set_refreshToken u (Some ""))) /\
    (forall now req2 jar token,
        cookies req2 = Some jar ->
        Js.nonEmpty (Js.orElse (c_refreshToken jar) (b_refreshToken (body req2)))
          = Some token ->
        (forall decoded,
            jwt_verify now token REFRESH_TOKEN_SECRET = inr decoded ->
            decoded = Some (Some (s_id p))) ->
        exists e w2,
          refreshAccessToken now req2 w1 = (inl e, w2) /\ db w2 = db w1).
Proof.
  rewrite logout_run. destruct (user req) as [p|]; [|discriminate].
  intros H; injection H as _ <-. exists p. split; [reflexivity|].
  simpl db.
  assert (Hst : forall u, lookupId (s_id p) (db w) = Some u ->
            lookupId (s_id p)
              (match lookupId (s_id p) (db w) with
               | Some u0 => replaceId (set_refreshToken u0 (Some "")) (db w)
               | None => db w
               end) = Some (set_refreshToken u (Some ""))).
  { intros u Hu. rewrite Hu.
    pose proof (lookupId_id _ _ _ Hu) as Hid. rewrite <- Hid in Hu |- *.
    exact (lookupId_replaceId_same (set_refreshToken u (Some "")) u (db w) Hu). }
  split; [exact Hst|].
  intros now req2 jar token Hc Ht Hv.
  rewrite refresh_run, Hc, Ht.
  destruct (jwt_verify now token REFRESH_TOKEN_SECRET) as [e0|decoded];
    [eexists; eexists; split; reflexivity|].
  rewrite (Hv decoded eq_refl). cbv zeta. simpl db.
  destruct (lookupId (s_id p) (db w)) as [u|] eqn:L.
  - rewrite (Hst u eq_refl).
    simpl u_refreshToken.
    destruct (Js.strictEq (Some "") (Some token)) eqn:E.
    + apply strictEq_true in E. injection E as E.
      apply nonEmpty_Some in Ht. destruct Ht as [_ Hne]. now subst.
    + eexists. eexists. split; reflexivity.
  - rewrite L. eexists. eexists. split; reflexivity.
Qed.

End LogoutClaims.

(** C3 as the claim states it fails on the code: after Alice logs out,
    the stored value is the empty string and not [null], and her earlier
    refresh token, still within its lifetime, is answered with the
    generic 401 and not with the mismatch rejection (403). *)
Lemma logout_claim_counterexample :
  exists resp w1,
    logOutUser (Demo.asAlice emptyBody) (Demo.loggedIn 0) = (inr resp, w1) /\
    option_map u_refreshToken (UserModel.lookupId 1 (db w1)) = Some (Some "") /\
    option_map u_refreshToken (UserModel.lookupId 1 (db w1)) <> Some None /\
    exists w2,
      refreshAccessToken (P := Demo.platform) 3 (Demo.refreshWith "rk.1.0") w1
        = (inl refreshFailed, w2) /\
      refreshFailed <> refreshMismatch /\
      e_statusCode refreshFailed <> Some 403%Z.
Proof.
  eexists. eexists. split; [vm_compute; reflexivity|].
  split; [vm_compute; reflexivity|].
  split; [vm_compute; discriminate|].
  eexists. split; [vm_compute; reflexivity|].
  split; discriminate.
Qed.

Lemma logout_revokes_refresh_tokens_witness :
  exists resp w1,
    logOutUser (Demo.asAlice emptyBody) (Demo.loggedIn 0) = (inr resp, w1) /\
    exists e w2,
      refreshAccessToken (P := Demo.platform) 3 (Demo.refreshWith "rk.1.0") w1
        = (inl e, w2) /\ db w2 = db w1.
Proof.
  eexists. eexists. split; [vm_compute; reflexivity|].
  edestruct (logout_revokes_refresh_tokens (P := Demo.platform)
               (Demo.asAlice emptyBody) (Demo.loggedIn 0))
    as (p & Hp & _ & Hrej); [vm_compute; reflexivity|].
  injection Hp as <-.
  eapply (Hrej 3 (Demo.refreshWith "rk.1.0")); [reflexivity|reflexivity|].
  intros decoded H. vm_compute in H. injection H as <-. reflexivity.
Defined.

(* ===================================================================== *)
(** ** The access gate *)
(* ===================================================================== *)

Section GateClaims.
Context {P : Platform}.
Import UserModel UserHooks.

Lemma verify_run (now : Time) (req : Request) (w : World) :
  VerifyJWT now req w =
  match Js.nonEmpty (accessTokenOf req) with
  | None => (inl (ApiError 500 "UNAUTHORIZED"), w)
  | Some token =>
      match jwt_verify now token ACCESS_TOKEN_SECRET with
      | inl e0 =>
          (inl (ApiError (Js.orNumber (e_status e0) 500)
                         (Js.orDefault (e_message e0) "INTERNAL SERVER ERROR")),
           w)
      | inr decoded =>
          let claim_id := match decoded with
                          | Some c => c
                          | None => None
                          end in
          let w1 := {| db := db w;
                       dblog := dblog w ++ [OpFindById claim_id] |} in
          match match claim_id with
                | Some i => lookupId i (db w)
                | None => None
                end with
          | None => (inl (ApiError 500 "INVALID ACCESS TOKEN"), w1)
          | Some u => (inr (set_user req (select u)), w1)
          end
      end
  end.
Proof.
  unfold VerifyJWT.
  cbv beta iota zeta delta [tryCatch].
  destruct (Js.nonEmpty (accessTokenOf req)) as [token|]; [|reflexivity].
  cbv beta iota zeta delta
    [bind lift findById logOp getDb ret throw db dblog].
  destruct (jwt_verify now token ACCESS_TOKEN_SECRET) as [e0|decoded];
    [reflexivity|].
  destruct w as [l lg].
  destruct (match match decoded with Some c => c | None => None end with
            | Some i => lookupId i l
            | None => None
            end); reflexivity.
Qed.

(** C4 (the code departs from the claim). The gate hands every failure
    to [next(err)], but not with a 401 or a 404: its [catch] block
    builds the rejection from the [status] property of the caught error,
    which an [ApiError] does not have (it has [statusCode]), and falls
    back to 500. A request without a credential is rejected with status
    500 "UNAUTHORIZED", a token whose principal is gone with status 500
    "INVALID ACCESS TOKEN", and a token the library refuses with the
    [status] of the library's error, or 500 when it has none. *)
Theorem gate_rejections_by_mode
  (now : Time) (req : Request) (w w' : World) (err : JsError) :
  asyncHandler (VerifyJWT now req) w = (NextErr err, w') ->
  match Js.nonEmpty (accessTokenOf req) with
  | None => err = ApiError 500 "UNAUTHORIZED"
  | Some token =>
      match jwt_verify now token ACCESS_TOKEN_SECRET with
      | inl e0 =>
          err = ApiError (Js.orNumber (e_status e0) 500)
                         (Js.orDefault (e_message e0) "INTERNAL SERVER ERROR")
      | inr _ => err = ApiError 500 "INVALID ACCESS TOKEN"
      end
  end.
Proof.
  unfold asyncHandler. rewrite verify_run.
  destruct (Js.nonEmpty (accessTokenOf req)) as [token|].
  - destruct (jwt_verify now token ACCESS_TOKEN_SECRET) as [e0|decoded].
    + intros H; injection H as <- _. reflexivity.
    + cbv zeta.
      destruct (match match decoded with Some c => c | None => None end with
                | Some i => lookupId i (db w)
                | None => None
                end).
      * discriminate.
      * intros H; injection H as <- _. reflexivity.
  - intros H; injection H as <- _. reflexivity.
Qed.

(** The gate never lets an error escape the wrapper: it ends with
    [next()] or with [next(err)]. *)
Lemma gate_outcome_total (now : Time) (req : Request) (w : World) :
  exists o w', asyncHandler (VerifyJWT now req) w = (o, w') /\ db w' = db w.
Proof.
  unfold asyncHandler. rewrite verify_run.
  destruct (Js.nonEmpty (accessTokenOf req)) as [token|];
    [|eexists; eexists; split; reflexivity].
  destruct (jwt_verify now token ACCESS_TOKEN_SECRET) as [e0|decoded];
    [eexists; eexists; split; reflexivity|].
  cbv zeta.
  destruct (match match decoded with Some c => c | None => None end with
            | Some i => lookupId i (db w)
            | None => None
            end); eexists; eexists; split; reflexivity.
Qed.

End GateClaims.

Lemma gate_rejections_by_mode_witness :
  exists err w',
    asyncHandler (VerifyJWT (P := Demo.platform) 3
                    (Demo.request (Some Demo.noCookies) emptyBody)) Demo.world0
      = (NextErr err, w') /\
    err = ApiError 500 "UNAUTHORIZED".
Proof.
  eexists. eexists. split; [vm_compute; reflexivity|].
  match goal with
  | |- ?e = _ =>
      exact (gate_rejections_by_mode (P := Demo.platform) 3
               (Demo.request (Some Demo.noCookies) emptyBody)
               Demo.world0 Demo.world0 e eq_refl)
  end.
Defined.

(** A token signed with another key, and the token of a principal that
    is no longer stored: both are answered with status 500. *)
Example gate_bad_signature_is_500 :
  fst (asyncHandler (VerifyJWT (P := Demo.platform) 3
         {| cookies := Some {| c_accessToken := Some "zz.1.0";
                               c_refreshToken := None |};
            authorization := None; body := emptyBody; files := None;
            user := None |}) Demo.world0)
  = NextErr (ApiError 500 "invalid signature").
Proof. vm_compute. reflexivity. Qed.

Example gate_unknown_principal_is_500 :
  fst (asyncHandler (VerifyJWT (P := Demo.platform) 3
         {| cookies := None;
            authorization := Some "Bearer ak.5.0"; body := emptyBody;
            files := None; user := None |}) Demo.world0)
  = NextErr (ApiError 500 "INVALID ACCESS TOKEN").
Proof. vm_compute. reflexivity. Qed.

(* ===================================================================== *)
(** ** Login *)
(* ===================================================================== *)

Section LoginClaims.
Context {P : Platform}.
Import UserModel UserHooks.

Lemma login_run (now : Time) (req : Request) (w : World) :
  let username := b_username (body req) in
  let email := b_email (body req) in
  loginUser now req w =
  if negb (Js.truthy username) && negb (Js.truthy email)
  then (inl (ApiError 400 "USERNAME OR EMAIL IS REQUIRED"), w)
  else
    let w1 := {| db := db w;
                 dblog := dblog w ++ [OpFindOne username email] |} in
    match find (matchesFilter username email) (db w) with
    | None => (inl (ApiError 404 "USER NOT FOUND"), w1)
    | Some u =>
        match isPasswordCorrect u (b_password (body req)) with
        | inl e => (inl e, w1)
        | inr false => (inl (ApiError 400 "INCORRECT PASSWORD"), w1)
        | inr true =>
            match generateAccessAndRefreshTokens now (u_id u) w1 with
            | (inl e, w2) => (inl e, w2)
            | (inr tokens, w2) =>
                (inr {| status := 200;
                        cookieOps :=
                          [SetCookie "accessToken"
                             (Js.getProp "accessToken" tokens);
                           SetCookie "refreshToken"
                             (Js.getProp "refreshToken" tokens)];
                        json := ApiResponse_new 200
                                  (DLogin
                                     (option_map select
                                        (lookupId (u_id u) (db w2)))
                                     (Js.getProp "accessToken" tokens)
                                     (Js.getProp "refreshToken" tokens))
                                  "USER LOGGED IN SUCCESSFULLY" |},
                 {| db := db w2;
                    dblog := dblog w2 ++ [OpFindById (Some (u_id u))] |})
            end
        end
    end.
Proof.
  intros username email. unfold loginUser. fold username email.
  destruct (negb (Js.truthy username) && negb (Js.truthy email));
    [reflexivity|].
  cbv beta iota zeta delta
    [bind lift findOne findById logOp getDb ret throw db dblog].
  destruct w as [l lg].
  destruct (find (matchesFilter username email) l) as [u|]; [|reflexivity].
  destruct (isPasswordCorrect u (b_password (body req))) as [e|[|]];
    [reflexivity| |reflexivity].
  cbv beta iota zeta delta [negb].
  destruct (generateAccessAndRefreshTokens now (u_id u) _) as [[e|tokens] [l2 lg2]];
    reflexivity.
Qed.

(** A login that succeeds leaves the refresh token it returns as the
    stored value of the principal it returns. *)
Lemma login_success (now : Time) (req : Request) (w w' : World) (resp : Response) :
  loginUser now req w = (inr resp, w') ->
  exists u,
    lookupId (u_id u) (db w) = Some u /\
    db w' = replaceId (set_refreshToken u (Some (generateRefreshToken u now)))
                      (db w) /\
    lookupId (u_id u) (db w') =
      Some (set_refreshToken u (Some (generateRefreshToken u now))) /\
    r_data (json resp) =
      DLogin (Some (select u)) (Some (generateAccessToken u now))
             (Some (generateRefreshToken u now)) /\
    cookieOps resp =
      [SetCookie "accessToken" (Some (generateAccessToken u now));
       SetCookie "refreshToken" (Some (generateRefreshToken u now))].
Proof.
  rewrite login_run.
  destruct (negb _ && negb _); [discriminate|]. cbv zeta.
  destruct (find _ (db w)) as [u0|]; [|discriminate].
  destruct (isPasswordCorrect u0 _) as [e|[|]]; try discriminate.
  rewrite mint_run. simpl db.
  destruct (lookupId (u_id u0) (db w)) as [u|] eqn:L; [|discriminate].
  pose proof (lookupId_id _ _ _ L) as Hid. rewrite <- Hid in L |- *.
  pose proof (lookupId_replaceId_same
                (set_refreshToken u (Some (generateRefreshToken u now)))
                u (db w) L) as Hst.
  simpl db. simpl u_id in Hst.
  intros H; injection H as <- <-.
  exists u. split; [exact L|]. split; [reflexivity|].
  split; [exact Hst|]. simpl. rewrite Hst. split; reflexivity.
Qed.

(** C5. Two successful logins in sequence for the same principal leave
    the refresh token issued by the second login as the stored value:
    the stored value equals that token and no other, the token of the
    first login included unless the two are the same string. *)
Theorem second_login_owns_session
  (now1 now2 : Time) (req1 req2 : Request) (w0 w1 w2 : World)
  (resp1 resp2 : Response) (p1 p2 : SafeUser)
  (access1 access2 refresh1 refresh2 : option string) :
  loginUser now1 req1 w0 = (inr resp1, w1) ->
  loginUser now2 req2 w1 = (inr resp2, w2) ->
  r_data (json resp1) = DLogin (Some p1) access1 refresh1 ->
  r_data (json resp2) = DLogin (Some p2) access2 refresh2 ->
  s_id p1 = s_id p2 ->
  exists u,
    lookupId (s_id p2) (db w2) = Some u /\
    u_refreshToken u = refresh2 /\
    refresh2 <> None /\
    (forall t, u_refreshToken u = Some t <-> refresh2 = Some t) /\
    (refresh1 <> refresh2 -> u_refreshToken u <> refresh1).
Proof.
  intros H1 H2 D1 D2 Hsame.
  apply login_success in H2.
  destruct H2 as (u & Lu & _ & Hst & Hd & _).
  rewrite Hd in D2. injection D2 as <- _ <-.
  exists (set_refreshToken u (Some (generateRefreshToken u now2))).
  split; [exact Hst|]. simpl.
  split; [reflexivity|]. split; [discriminate|].
  split; [tauto|]. intros N E. apply N. now rewrite E.
Qed.

(** C7. A login whose handle is found but whose secret does not verify
    is rejected with status 400 "INCORRECT PASSWORD"; no token is
    minted and the stored records, refresh value included, are what
    they were. *)
Theorem login_wrong_secret_changes_nothing
  (now : Time) (req : Request) (w : World) (handle : string) (u : User) :
  b_username (body req) = Some handle ->
  handle <> "" ->
  find (matchesFilter (Some handle) (b_email (body req))) (db w) = Some u ->
  isPasswordCorrect u (b_password (body req)) = inr false ->
  exists w',
    loginUser now req w = (inl (ApiError 400 "INCORRECT PASSWORD"), w') /\
    db w' = db w /\
    dblog w' = dblog w ++ [OpFindOne (Some handle) (b_email (body req))].
Proof.
  intros Hh Hne Hf Hp. rewrite login_run, Hh.
  assert (T : Js.truthy (Some handle) = true).
  { simpl. destruct (String.eqb_spec handle ""); [contradiction|reflexivity]. }
  rewrite T. simpl negb. simpl andb. cbv zeta. rewrite Hf, Hp.
  eexists. repeat split.
Qed.

(** C8, as amended. A login request in which both the handle and the
    address are absent or empty is rejected with status 400 "USERNAME OR
    EMAIL IS REQUIRED" before the store is consulted. The presence of
    the secret is not checked there: with a handle or an address
    present, the store lookup is the next thing that happens, whether or
    not the request carries a secret. *)
Theorem login_requires_identity_only
  (now : Time) (req : Request) (w : World) :
  let username := b_username (body req) in
  let email := b_email (body req) in
  (Js.truthy username = false /\ Js.truthy email = false ->
   loginUser now req w =
     (inl (ApiError 400 "USERNAME OR EMAIL IS REQUIRED"), w)) /\
  (Js.truthy username = true \/ Js.truthy email = true ->
   exists rest,
     dblog (snd (loginUser now req w)) =
       dblog w ++ OpFindOne username email :: rest).
Proof.
  intros username email. split.
  - intros [Hu He]. rewrite login_run. fold username email.
    now rewrite Hu, He.
  - intros Hid. rewrite login_run. fold username email.
    assert (G : negb (Js.truthy username) && negb (Js.truthy email) = false).
    { destruct Hid as [-> | ->]; simpl; [reflexivity|apply andb_false_r]. }
    rewrite G. cbv zeta.
    destruct (find _ (db w)) as [u|]; [|exists []; reflexivity].
    destruct (isPasswordCorrect u _) as [e|[|]];
      try (exists []; reflexivity).
    rewrite mint_run. simpl db. simpl dblog.
    destruct (lookupId (u_id u) (db w)) as [v|]; simpl.
    + eexists. rewrite <- !app_assoc. reflexivity.
    + eexists. rewrite <- !app_assoc. reflexivity.
Qed.

End LoginClaims.

Lemma second_login_owns_session_witness :
  exists resp1 w1 resp2 w2,
    loginUser (P := Demo.platform) 0 Demo.aliceLogin Demo.world0
      = (inr resp1, w1) /\
    loginUser (P := Demo.platform) 1 Demo.aliceLogin w1 = (inr resp2, w2) /\
    exists u,
      UserModel.lookupId 1 (db w2) = Some u /\
      u_refreshToken u = Some "rk.1.1".
Proof.
  eexists. eexists. eexists. eexists.
  split; [vm_compute; reflexivity|].
  split; [vm_compute; reflexivity|].
  edestruct (second_login_owns_session (P := Demo.platform) 0 1
               Demo.aliceLogin Demo.aliceLogin Demo.world0)
    as (u & Hl & Hr & _);
    [vm_compute; reflexivity | vm_compute; reflexivity
     | vm_compute; reflexivity | vm_compute; reflexivity | reflexivity |].
  exists u. split; [exact Hl|exact Hr].
Defined.

Lemma login_wrong_secret_changes_nothing_witness :
  exists w',
    loginUser (P := Demo.platform) 0
      (Demo.request (Some Demo.noCookies)
         (Demo.loginBody (Some "Alice") (Some "looking-glass")))
      (Demo.loggedIn 0)
      = (inl (ApiError 400 "INCORRECT PASSWORD"), w') /\
    db w' = db (Demo.loggedIn 0).
Proof.
  edestruct (login_wrong_secret_changes_nothing (P := Demo.platform) 0
               (Demo.request (Some Demo.noCookies)
                  (Demo.loginBody (Some "Alice") (Some "looking-glass")))
               (Demo.loggedIn 0) "Alice"
               (set_refreshToken Demo.alice (Some "rk.1.0")))
    as (w' & H & Hd & _);
    [reflexivity | discriminate | vm_compute; reflexivity
     | vm_compute; reflexivity |].
  exists w'. split; [exact H|exact Hd].
Defined.

(** C8 as the claim states it fails on the code: a login request that
    names a handle and carries no secret is not turned away by the
    presence check; the store is consulted, and the rejection is the 404
    of the lookup. *)
Lemma login_claim_counterexample :
  let req := Demo.request (Some Demo.noCookies)
               (Demo.loginBody (Some "carol") None) in
  b_password (body req) = None /\
  exists w',
    loginUser (P := Demo.platform) 0 req Demo.world0
      = (inl (ApiError 404 "USER NOT FOUND"), w') /\
    dblog w' = [OpFindOne (Some "carol") None] /\
    ApiError 404 "USER NOT FOUND" <> ApiError 400 "USERNAME OR EMAIL IS REQUIRED".
Proof.
  split; [reflexivity|].
  eexists. split; [vm_compute; reflexivity|].
  split; [reflexivity|discriminate].
Qed.

Lemma login_requires_identity_only_witness :
  loginUser (P := Demo.platform) 0
    (Demo.request (Some Demo.noCookies) (Demo.loginBody (Some "") None))
    Demo.world0
    = (inl (ApiError 400 "USERNAME OR EMAIL IS REQUIRED"), Demo.world0) /\
  exists rest,
    dblog (snd (loginUser (P := Demo.platform) 0
                  (Demo.request (Some Demo.noCookies)
                     (Demo.loginBody (Some "carol") None))
                  Demo.world0))
    = dblog Demo.world0 ++ OpFindOne (Some "carol") None :: rest.
Proof.
  split.
  - apply (login_requires_identity_only (P := Demo.platform) 0
             (Demo.request (Some Demo.noCookies)
                (Demo.loginBody (Some "") None)) Demo.world0).
    split; reflexivity.
  - apply (login_requires_identity_only (P := Demo.platform) 0
             (Demo.request (Some Demo.noCookies)
                (Demo.loginBody (Some "carol") None)) Demo.world0).
    left. reflexivity.
Defined.

(* ===================================================================== *)
(** ** Secret change *)
(* ===================================================================== *)

Section SecretClaims.
Context {P : Platform}.
Import UserModel UserHooks.

Lemma change_password_run (req : Request) (w : World) :
  changeCurrentpassword req w =
  match user req with
  | None => (inl TypeError, w)
  | Some requester =>
      let w1 := {| db := db w;
                   dblog := dblog w ++ [OpFindById (Some (s_id requester))] |} in
      match lookupId (s_id requester) (db w) with
      | None => (inl TypeError, w1)
      | Some u =>
          match isPasswordCorrect u (b_currentPassword (body req)) with
          | inl e => (inl e, w1)
          | inr false => (inl (ApiError 400 "INCORRECT PASSWORD"), w1)
          | inr true =>
              let lg := dblog w1 ++ [OpSave (u_id u)] in
              match b_newPassword (body req) with
              | None => (inl ValidationError, {| db := db w; dblog := lg |})
              | Some p =>
                  (inr {| status := 200;
                          cookieOps := [];
                          json := ApiResponse_new 200 DNull
                                    "PASSWORD CHANGED SUCCESSFULLY" |},
                   {| db := replaceId (set_password u (hashPassword p)) (db w);
                      dblog := lg |})
              end
          end
      end
  end.
Proof.
  unfold changeCurrentpassword.
  destruct (user req) as [requester|]; [|reflexivity].
  cbv beta iota zeta delta
    [bind lift findById savePassword logOp getDb putDb ret throw db dblog].
  destruct w as [l lg].
  destruct (lookupId (s_id requester) l) as [u|]; [|reflexivity].
  destruct (isPasswordCorrect u _) as [e|[|]]; [reflexivity| |reflexivity].
  cbv beta iota zeta delta [negb].
  destruct (b_newPassword (body req)); reflexivity.
Qed.

(** C6. A secret change that succeeds rewrites the stored secret of the
    requesting principal with the hash of the new one and nothing else:
    the principal's refresh value and every other field are what they
    were, and so is every other record. *)
Theorem secret_change_keeps_refresh_token
  (req : Request) (w w' : World) (resp : Response) :
  changeCurrentpassword req w = (inr resp, w') ->
  exists requester u newPassword,
    user req = Some requester /\
    b_newPassword (body req) = Some newPassword /\
    lookupId (s_id requester) (db w) = Some u /\
    lookupId (s_id requester) (db w') =
      Some (set_password u (hashPassword newPassword)) /\
    u_refreshToken (set_password u (hashPassword newPassword))
      = u_refreshToken u /\
    select (set_password u (hashPassword newPassword)) = select u /\
    (forall id, id <> s_id requester ->
                lookupId id (db w') = lookupId id (db w)) /\
    List.length (db w') = List.length (db w).
Proof.
  rewrite change_password_run.
  destruct (user req) as [requester|]; [|discriminate]. cbv zeta.
  destruct (lookupId (s_id requester) (db w)) as [u|] eqn:L; [|discriminate].
  destruct (isPasswordCorrect u _) as [e|[|]]; try discriminate.
  destruct (b_newPassword (body req)) as [p|]; [|discriminate].
  intros H; injection H as _ <-.
  exists requester, u, p. simpl db.
  pose proof (lookupId_id _ _ _ L) as Hid.
  split; [reflexivity|]. split; [reflexivity|]. split; [exact L|].
  split; [|split; [reflexivity|split; [reflexivity|split]]].
  - rewrite <- Hid in L |- *.
    exact (lookupId_replaceId_same (set_password u (hashPassword p)) u (db w) L).
  - intros id N. apply lookupId_replaceId_other. simpl. congruence.
  - clear. induction (db w) as [|x l IH]; simpl; [reflexivity|].
    destruct (u_id x =? u_id u)%nat; simpl; congruence.
Qed.

End SecretClaims.

Lemma secret_change_keeps_refresh_token_witness :
  exists resp w',
    changeCurrentpassword (P := Demo.platform)
      (Demo.asAlice {| b_fullName := None; b_email := None;
                       b_username := None; b_password := None;
                       b_refreshToken := None;
                       b_currentPassword := Some "wonderland";
                       b_newPassword := Some "looking-glass" |})
      (Demo.loggedIn 0) = (inr resp, w') /\
    option_map u_refreshToken (UserModel.lookupId 1 (db w'))
      = Some (Some "rk.1.0") /\
    option_map u_password (UserModel.lookupId 1 (db w'))
      = Some "h(looking-glass)".
Proof.
  eexists. eexists. split; [vm_compute; reflexivity|].
  edestruct (secret_change_keeps_refresh_token (P := Demo.platform)
               (Demo.asAlice {| b_fullName := None; b_email := None;
                                b_username := None; b_password := None;
                                b_refreshToken := None;
                                b_currentPassword := Some "wonderland";
                                b_newPassword := Some "looking-glass" |})
               (Demo.loggedIn 0))
    as (requester & u & np & Hr & Hn & Hl & Hl' & _);
    [vm_compute; reflexivity|].
  injection Hr as <-. injection Hn as <-.
  vm_compute in Hl. injection Hl as <-.
  split; [vm_compute; reflexivity|].
  exact (f_equal (option_map u_password) Hl').
Defined.

(* ===================================================================== *)
(** ** Registration *)
(* ===================================================================== *)

Section RegisterClaims.
Context {P : Platform}.
Import UserModel UserHooks.

Lemma isBlank_true (field : option string) :
  isBlank field = true <-> exists s, field = Some s /\ Js.trim s = "".
Proof.
  unfold isBlank. rewrite strictEq_true.
  destruct field as [s|]; simpl; split.
  - intros H; injection H as H. eauto.
  - intros (t & E & H). injection E as ->. now rewrite H.
  - discriminate.
  - intros (t & E & _). discriminate.
Qed.

Lemma anyBlank_true (fields : list (option string)) :
  existsb isBlank fields = true <->
  exists s, In (Some s) fields /\ Js.trim s = "".
Proof.
  rewrite existsb_exists. split.
  - intros (f & Hin & Hb). apply isBlank_true in Hb.
    destruct Hb as (s & -> & Ht). eauto.
  - intros (s & Hin & Ht). exists (Some s). split; [exact Hin|].
    apply isBlank_true. eauto.
Qed.

Lemma anyBlank_false (fields : list (option string)) :
  (forall s, In (Some s) fields -> Js.trim s <> "") ->
  existsb isBlank fields = false.
Proof.
  intros H. destruct (existsb isBlank fields) eqn:E; [|reflexivity].
  apply anyBlank_true in E. destruct E as (s & Hin & Ht).
  now apply H in Hin.
Qed.

Lemma find_matching (f : User -> bool) (l : list User) (u : User) :
  In u l -> f u = true -> exists v, find f l = Some v.
Proof.
  intros Hin Hf. destruct (find f l) as [v|] eqn:E; [eauto|].
  pose proof (find_none f l E u Hin). congruence.
Qed.

(** Past the presence check the handler consults the store first, and
    none of the ways it can end after that is the rejection of the
    presence check. *)
Lemma register_after_check (req : Request) (w : World) :
  existsb isBlank [b_fullName (body req); b_email (body req);
                   b_username (body req); b_password (body req)] = false ->
  fst (registerUser req w) <> inl (ApiError 400 "ALL FIELDS ARE REQUIRED") /\
  exists rest,
    dblog (snd (registerUser req w)) =
      dblog w ++ OpFindOne (b_username (body req)) (b_email (body req)) :: rest.
Proof.
  intros Hb. unfold registerUser. rewrite Hb.
  cbv beta iota zeta delta
    [bind lift findOne findById create uploadOnCloudinary tryCatch
     avatarPath coverImagePath logOp getDb putDb ret throw].
  destruct w as [l lg]. cbn [db dblog].
  repeat (case_scrutinee; cbn [db dblog]; cbv beta iota);
    (split; [cbn [fst]; discriminate
            | cbn [snd dblog]; eexists; rewrite <- ?app_assoc; reflexivity]).
Qed.

(** C9. The handle is a uniqueness key that ignores letter case: a
    registration request that passes the presence check and whose
    handle differs only in letter case from the handle of a stored
    principal is rejected with status 409 "USER ALREADY EXISTS", and the
    collection is left as it was. *)
Theorem register_handle_ignores_case
  (req : Request) (w : World) (handle : string) (u : User) :
  b_username (body req) = Some handle ->
  In u (db w) ->
  Js.toLowerCase handle = Js.toLowerCase (u_username u) ->
  (forall s, In (Some s) [b_fullName (body req); b_email (body req);
                          b_username (body req); b_password (body req)] ->
             Js.trim s <> "") ->
  exists w',
    registerUser req w = (inl (ApiError 409 "USER ALREADY EXISTS"), w') /\
    db w' = db w.
Proof.
  intros Hh Hin Hcase Hpresent.
  apply anyBlank_false in Hpresent.
  unfold registerUser. rewrite Hpresent, Hh.
  cbv beta iota zeta delta [bind findOne logOp getDb ret throw db dblog].
  destruct w as [l lg]. simpl in Hin.
  destruct (find_matching (matchesFilter (Some handle) (b_email (body req))) l u Hin)
    as [v Hv].
  - unfold matchesFilter, handleKey. rewrite Hcase, String.eqb_refl. reflexivity.
  - rewrite Hv. eexists. split; reflexivity.
Qed.

(** C10. The rejection 400 "ALL FIELDS ARE REQUIRED" is raised exactly
    when one of fullName, email, username, password is present and
    trims to the empty string. A request in which none of the fields
    that are present is blank - fields that are absent do not count -
    passes the check, and the uniqueness lookup is the next thing that
    happens. *)
Theorem register_presence_check (req : Request) (w : World) :
  let fields := [b_fullName (body req); b_email (body req);
                 b_username (body req); b_password (body req)] in
  (fst (registerUser req w) = inl (ApiError 400 "ALL FIELDS ARE REQUIRED")
   <-> exists s, In (Some s) fields /\ Js.trim s = "") /\
  ((forall s, In (Some s) fields -> Js.trim s <> "") ->
   exists rest,
     dblog (snd (registerUser req w)) =
       dblog w ++ OpFindOne (b_username (body req)) (b_email (body req)) :: rest).
Proof.
  intros fields. split; [split|].
  - intros H. apply anyBlank_true.
    destruct (existsb isBlank fields) eqn:E; [reflexivity|].
    apply (register_after_check req w) in E. destruct E as [N _]. contradiction.
  - intros H. apply anyBlank_true in H. fold fields in H.
    unfold registerUser. fold fields. rewrite H. reflexivity.
  - intros H. apply anyBlank_false in H.
    apply (register_after_check req w) in H. exact (proj2 H).
Qed.

End RegisterClaims.

Lemma register_handle_ignores_case_witness :
  exists w',
    registerUser (P := Demo.platform)
      (Demo.registration (Some "Alice Liddell") (Some "liddell@example.com")
                         (Some "ALICE") (Some "rabbit-hole"))
      Demo.world0
      = (inl (ApiError 409 "USER ALREADY EXISTS"), w') /\
    db w' = db Demo.world0.
Proof.
  apply (register_handle_ignores_case (P := Demo.platform)
           (Demo.registration (Some "Alice Liddell") (Some "liddell@example.com")
                              (Some "ALICE") (Some "rabbit-hole"))
           Demo.world0 "ALICE" Demo.alice).
  - reflexivity.
  - left. reflexivity.
  - reflexivity.
  - intros s [H|[H|[H|[H|[]]]]]; injection H as <-; vm_compute; discriminate.
Defined.

Lemma register_presence_check_witness :
  fst (registerUser (P := Demo.platform)
         (Demo.registration (Some "Carol C") (Some "  ") (Some "carol")
                            (Some "pw"))
         Demo.world0)
    = inl (ApiError 400 "ALL FIELDS ARE REQUIRED") /\
  exists rest,
    dblog (snd (registerUser (P := Demo.platform)
                  (Demo.registration (Some "Carol C") (Some "carol@example.com")
                                     (Some "carol") None)
                  Demo.world0))
      = dblog Demo.world0 ++ OpFindOne (Some "carol") (Some "carol@example.com")
                             :: rest.
Proof.
  split.
  - apply (register_presence_check (P := Demo.platform)
             (Demo.registration (Some "Carol C") (Some "  ") (Some "carol")
                                (Some "pw"))
             Demo.world0).
    exists "  ". split; [right; left; reflexivity|reflexivity].
  - apply (register_presence_check (P := Demo.platform)
             (Demo.registration (Some "Carol C") (Some "carol@example.com")
                                (Some "carol") None)
             Demo.world0).
    intros s [H|[H|[H|[H|[]]]]]; try discriminate H;
      injection H as <-; vm_compute; discriminate.
Defined.

(** A registration that goes through stores the handle in lower case;
    one without a secret passes the presence check and the lookup and is
    refused by the model. *)
Example register_carol :
  exists resp w',
    registerUser (P := Demo.platform)
      (Demo.registration (Some "Carol C") (Some "carol@example.com")
                         (Some "Carol") (Some "pw"))
      Demo.world0 = (inr resp, w') /\
    option_map u_username (UserModel.lookupId 3 (db w')) = Some "carol" /\
    status resp = 200%Z.
Proof.
  eexists. eexists. split; [vm_compute; reflexivity|].
  split; reflexivity.
Qed.

Example register_without_secret :
  registerUser (P := Demo.platform)
    (Demo.registration (Some "Carol C") (Some "carol@example.com")
                       (Some "carol") None)
    Demo.world0
  = (inl UserModel.ValidationError,
     {| db := db Demo.world0;
        dblog := [OpFindOne (Some "carol") (Some "carol@example.com");
                  OpCreate] |}).
Proof. vm_compute. reflexivity. Qed.

(* ===================================================================== *)
(** ** More facts about the store and the string primitives *)
(* ===================================================================== *)

Section MoreStoreFacts.
Import UserModel.

Lemma ids_replaceId (u : User) (l : list User) :
  map u_id (replaceId u l) = map u_id l.
Proof.
  induction l as [|x l IH]; simpl; [reflexivity|].
  destruct (Nat.eqb_spec (u_id x) (u_id u)) as [E|E]; simpl; congruence.
Qed.

Lemma lookupId_None_notin (id : nat) (l : list User) :
  lookupId id l = None <-> ~ In id (map u_id l).
Proof.
  induction l as [|x l IH]; simpl; [tauto|].
  destruct (Nat.eqb_spec (u_id x) id) as [E|E].
  - split; [discriminate|]. intros N. exfalso. apply N. now left.
  - rewrite IH. tauto.
Qed.

Lemma max_ids_bound (l : list User) (i : nat) :
  In i (map u_id l) -> i <= fold_right Nat.max 0 (map u_id l).
Proof.
  induction l as [|x l IH]; simpl; [tauto|].
  intros [<-|H].
  - apply Nat.le_max_l.
  - etransitivity; [apply IH, H|apply Nat.le_max_r].
Qed.

Lemma freshId_notin (l : list User) : ~ In (freshId l) (map u_id l).
Proof.
  intros H. apply max_ids_bound in H. unfold freshId in H.
  exact (Nat.nle_succ_diag_l _ H).
Qed.

Lemma lookupId_app_new (u : User) (l : list User) :
  lookupId (u_id u) l = None ->
  lookupId (u_id u) (l ++ [u]) = Some u.
Proof.
  induction l as [|x l IH]; simpl.
  - now rewrite Nat.eqb_refl.
  - destruct (Nat.eqb_spec (u_id x) (u_id u)); [discriminate|exact IH].
Qed.

Lemma lookupId_app_old (id : nat) (l l' : list User) (v : User) :
  lookupId id l = Some v -> lookupId id (l ++ l') = Some v.
Proof.
  induction l as [|x l IH]; simpl; [discriminate|].
  destruct (Nat.eqb_spec (u_id x) id); auto.
Qed.

Lemma lowerChar_idempotent (c : ascii) :
  Js.lowerChar (Js.lowerChar c) = Js.lowerChar c.
Proof.
  destruct c as [[|] [|] [|] [|] [|] [|] [|] [|]]; vm_compute; reflexivity.
Qed.

Lemma toLowerCase_idempotent (s : string) :
  Js.toLowerCase (Js.toLowerCase s) = Js.toLowerCase s.
Proof.
  induction s as [|c s IH]; simpl; [reflexivity|].
  now rewrite lowerChar_idempotent, IH.
Qed.

Lemma prefix_app (p s : string) : prefix p (p ++ s) = true.
Proof.
  induction p as [|c p IH]; simpl.
  - destruct s; reflexivity.
  - destruct (ascii_dec c c) as [_|N]; [exact IH|contradiction].
Qed.

Lemma drop_app (p s : string) : Js.drop (String.length p) (p ++ s) = s.
Proof.
  induction p as [|c p IH]; simpl; [reflexivity|exact IH].
Qed.

Lemma replace_prefix (pat rep s : string) :
  Js.replace pat rep (pat ++ s) = (rep ++ s)%string.
Proof.
  destruct (pat ++ s)%string as [|c t] eqn:E.
  - simpl. destruct pat; [|discriminate]. simpl in E. now subst.
  - rewrite <- E. unfold Js.replace. 
    destruct (pat ++ s)%string eqn:E2; [congruence|].
    rewrite <- E2. fold Js.replace. rewrite prefix_app, drop_app. reflexivity.
Qed.

Lemma truthy_nonEmpty (v : option string) :
  Js.truthy v = false <-> Js.nonEmpty v = None.
Proof.
  destruct v as [s|]; simpl; [|tauto].
  destruct (s =? ""); simpl; split; congruence.
Qed.

End MoreStoreFacts.

(* ===================================================================== *)
(** ** The session lifecycle: how the operations compose *)
(* ===================================================================== *)

Section Lifecycle.
Context {P : Platform}.
Import UserModel UserHooks.

(** What a refresh that succeeds has read and written. *)
Lemma refresh_success_inv
  (now : Time) (req : Request) (w w' : World) (resp : Response) :
  refreshAccessToken now req w = (inr resp, w') ->
  exists jar incoming u,
    cookies req = Some jar /\
    Js.nonEmpty (Js.orElse (c_refreshToken jar) (b_refreshToken (body req)))
      = Some incoming /\
    jwt_verify now incoming REFRESH_TOKEN_SECRET = inr (Some (Some (u_id u))) /\
    lookupId (u_id u) (db w) = Some u /\
    u_refreshToken u = Some incoming /\
    db w' = replaceId (set_refreshToken u (Some (generateRefreshToken u now)))
                      (db w).
Proof.
  rewrite refresh_run.
  destruct (cookies req) as [jar|]; [|discriminate].
  destruct (Js.nonEmpty _) as [incoming|] eqn:Ht; [|discriminate].
  destruct (jwt_verify now incoming REFRESH_TOKEN_SECRET) as [e|[claim_id|]]
    eqn:Hv; try discriminate.
  cbv zeta.
  destruct claim_id as [i|]; [|discriminate].
  destruct (lookupId i (db w)) as [u|] eqn:L; [|discriminate].
  destruct (Js.strictEq (u_refreshToken u) (Some incoming)) eqn:E; [|discriminate].
  pose proof (lookupId_id _ _ _ L) as Hid. subst i.
  rewrite mint_run. simpl db. rewrite L.
  intros H; injection H as _ <-.
  exists jar, incoming, u. simpl db.
  split; [reflexivity|]. split; [exact Ht|]. split; [exact Hv|].
  split; [exact L|]. split; [now apply strictEq_true|reflexivity].
Qed.

(** A refresh that is answered with an error has written nothing. *)
Lemma refresh_failure_inv
  (now : Time) (req : Request) (w w' : World) (e : JsError) :
  refreshAccessToken now req w = (inl e, w') -> db w' = db w.
Proof.
  rewrite refresh_run.
  destruct (cookies req) as [jar|]; [|intros H; now injection H as _ <-].
  destruct (Js.nonEmpty _) as [incoming|]; [|intros H; now injection H as _ <-].
  destruct (jwt_verify now incoming REFRESH_TOKEN_SECRET) as [e0|[claim_id|]];
    try (intros H; now injection H as _ <-).
  cbv zeta.
  destruct (match claim_id with Some i => lookupId i (db w) | None => None end)
    as [u|]; [|intros H; now injection H as _ <-].
  destruct (Js.strictEq _ _); [|intros H; now injection H as _ <-].
  rewrite mint_run. simpl db.
  destruct (lookupId (u_id u) (db w)); [discriminate|].
  intros H; now injection H as _ <-.
Qed.

(** A login that is answered with an error has written nothing. *)
Lemma login_failure_inv
  (now : Time) (req : Request) (w w' : World) (e : JsError) :
  loginUser now req w = (inl e, w') -> db w' = db w.
Proof.
  rewrite login_run.
  destruct (negb _ && negb _); [intros H; now injection H as _ <-|].
  cbv zeta.
  destruct (find _ (db w)) as [u|]; [|intros H; now injection H as _ <-].
  destruct (isPasswordCorrect u _) as [e0|[|]];
    try (intros H; now injection H as _ <-).
  rewrite mint_run. simpl db.
  destruct (lookupId (u_id u) (db w)); [discriminate|].
  intros H; now injection H as _ <-.
Qed.



(** X2. A login that succeeds changes one thing in the collection: the
    refresh value of the principal it answers with. That principal's
    secret and profile, every other record, and the set of stored ids
    are what they were. *)
Theorem login_writes_only_refresh_token
  (now : Time) (req : Request) (w w' : World) (resp : Response) :
  loginUser now req w = (inr resp, w') ->
  exists u u',
    lookupId (u_id u) (db w) = Some u /\
    lookupId (u_id u) (db w') = Some u' /\
    r_data (json resp) =
      DLogin (Some (select u')) (Some (generateAccessToken u now))
             (u_refreshToken u') /\
    u_password u' = u_password u /\
    select u' = select u /\
    (forall id, id <> u_id u -> lookupId id (db w') = lookupId id (db w)) /\
    map u_id (db w') = map u_id (db w).
Proof.
  intros H. apply login_success in H.
  destruct H as (u & L & Hdb & Hst & Hd & _).
  exists u, (set_refreshToken u (Some (generateRefreshToken u now))).
  split; [exact L|]. split; [exact Hst|]. split; [exact Hd|].
  split; [reflexivity|]. split; [reflexivity|]. rewrite Hdb. split.
  - intros id N. now apply lookupId_replaceId_other.
  - apply ids_replaceId.
Qed.

(** X3. Round trip of login and refresh: the refresh token a login
    returns, presented to the refresh operation while the token library
    verifies it for that principal, passes the equality check of step
    4; the refresh succeeds and stores a newly minted value over it. *)
Theorem login_then_refresh_succeeds
  (now1 now2 : Time) (req1 req2 : Request) (w0 w1 : World)
  (resp1 : Response) (p : SafeUser) (access : option string)
  (refresh : string) (jar : Cookies) :
  loginUser now1 req1 w0 = (inr resp1, w1) ->
  r_data (json resp1) = DLogin (Some p) access (Some refresh) ->
  cookies req2 = Some jar ->
  Js.nonEmpty (Js.orElse (c_refreshToken jar) (b_refreshToken (body req2)))
    = Some refresh ->
  jwt_verify now2 refresh REFRESH_TOKEN_SECRET = inr (Some (Some (s_id p))) ->
  exists resp2 w2 u,
    refreshAccessToken now2 req2 w1 = (inr resp2, w2) /\
    lookupId (s_id p) (db w1) = Some u /\
    u_refreshToken u = Some refresh /\
    lookupId (s_id p) (db w2) =
      Some (set_refreshToken u (Some (generateRefreshToken u now2))).
Proof.
  intros H1 D1 Hc Ht Hv.
  apply login_success in H1. destruct H1 as (u0 & L & _ & Hst & Hd & _).
  rewrite Hd in D1. injection D1 as <- _ <-.
  simpl s_id in *.
  set (u1 := set_refreshToken u0 (Some (generateRefreshToken u0 now1))) in *.
  assert (Hst1 : lookupId (u_id u1) (db w1) = Some u1) by exact Hst.
  rewrite refresh_run, Hc, Ht, Hv. cbv zeta. rewrite Hst.
  assert (E : Js.strictEq (u_refreshToken u1)
                (Some (generateRefreshToken u0 now1)) = true)
    by (apply strictEq_true; reflexivity).
  rewrite E. rewrite mint_run. simpl db. rewrite Hst1.
  eexists. eexists. exists u1.
  split; [reflexivity|]. split; [reflexivity|]. split; [reflexivity|].
  simpl db.
  exact (lookupId_replaceId_same
           (set_refreshToken u1 (Some (generateRefreshToken u1 now2)))
           u1 (db w1) Hst1).
Qed.

(** X4. Rotation revokes: once a refresh has succeeded and the value it
    minted differs from the token it consumed, that consumed token is
    rejected by every later refresh of the store it left, whether the
    token library still verifies it or not. *)
Theorem rotation_revokes_consumed_token
  (now now' : Time) (req req' : Request) (w w1 : World) (resp : Response)
  (jar jar' : Cookies) (token : string) (u : User) :
  refreshAccessToken now req w = (inr resp, w1) ->
  cookies req = Some jar ->
  Js.nonEmpty (Js.orElse (c_refreshToken jar) (b_refreshToken (body req)))
    = Some token ->
  lookupId (u_id u) (db w) = Some u ->
  jwt_verify now token REFRESH_TOKEN_SECRET = inr (Some (Some (u_id u))) ->
  generateRefreshToken u now <> token ->
  cookies req' = Some jar' ->
  Js.nonEmpty (Js.orElse (c_refreshToken jar') (b_refreshToken (body req')))
    = Some token ->
  (forall decoded,
      jwt_verify now' token REFRESH_TOKEN_SECRET = inr decoded ->
      decoded = Some (Some (u_id u))) ->
  exists e w2,
    refreshAccessToken now' req' w1 = (inl e, w2) /\ db w2 = db w1.
Proof.
  intros H Hc Ht L Hv Hnew Hc' Ht' Hv'.
  apply refresh_success_inv in H.
  destruct H as (jar0 & incoming & u0 & Hc0 & Ht0 & Hv0 & L0 & _ & Hdb).
  rewrite Hc in Hc0. injection Hc0 as <-.
  rewrite Ht in Ht0. injection Ht0 as <-.
  rewrite Hv in Hv0. injection Hv0 as Hid.
  rewrite <- Hid in L0. rewrite L in L0. injection L0 as <-.
  pose proof (lookupId_replaceId_same
                (set_refreshToken u (Some (generateRefreshToken u now)))
                u (db w) L) as Hst.
  rewrite <- Hdb in Hst. simpl u_id in Hst.
  rewrite refresh_run, Hc', Ht'.
  destruct (jwt_verify now' token REFRESH_TOKEN_SECRET) as [e0|decoded];
    [eexists; eexists; split; reflexivity|].
  rewrite (Hv' decoded eq_refl). cbv zeta. rewrite Hst. simpl u_refreshToken.
  destruct (Js.strictEq (Some (generateRefreshToken u now)) (Some token)) eqn:E.
  - apply strictEq_true in E. injection E as E. contradiction.
  - eexists. eexists. split; reflexivity.
Qed.

(** X5. A secret change does not end the session: every refresh request
    that would have succeeded before a successful secret change still
    succeeds after it. *)
Theorem secret_change_keeps_session
  (req : Request) (w w' : World) (resp : Response)
  (now : Time) (req2 : Request) (resp2 : Response) (w2 : World) :
  changeCurrentpassword req w = (inr resp, w') ->
  refreshAccessToken now req2 w = (inr resp2, w2) ->
  exists resp2' w2', refreshAccessToken now req2 w' = (inr resp2', w2').
Proof.
  intros Hc Hr.
  apply refresh_success_inv in Hr.
  destruct Hr as (jar & incoming & u & Hj & Ht & Hv & L & Hs & _).
  rewrite change_password_run in Hc.
  destruct (user req) as [requester|]; [|discriminate]. cbv zeta in Hc.
  destruct (lookupId (s_id requester) (db w)) as [v|] eqn:Lv; [|discriminate].
  destruct (isPasswordCorrect v _) as [e0|[|]]; try discriminate.
  destruct (b_newPassword (body req)) as [np|]; [|discriminate].
  injection Hc as _ <-.
  rewrite refresh_run, Hj, Ht, Hv. cbv zeta. simpl db.
  pose proof (lookupId_id _ _ _ Lv) as Hidv.
  destruct (Nat.eq_dec (u_id u) (s_id requester)) as [Same|Other].
  - assert (v = u) by congruence. subst v.
    rewrite <- Hidv in Lv.
    pose proof (lookupId_replaceId_same (set_password u (hashPassword np))
                  u (db w) Lv) as Hst.
    simpl u_id in Hst. rewrite Hst. simpl u_refreshToken. rewrite Hs.
    assert (E : Js.strictEq (Some incoming) (Some incoming) = true)
      by (apply strictEq_true; reflexivity).
    rewrite E, mint_run. simpl db. simpl u_id. rewrite Hst.
    eexists. eexists. reflexivity.
  - rewrite lookupId_replaceId_other by (simpl; congruence).
    rewrite L, Hs.
    assert (E : Js.strictEq (Some incoming) (Some incoming) = true)
      by (apply strictEq_true; reflexivity).
    rewrite E, mint_run. simpl db.
    rewrite lookupId_replaceId_other by (simpl; congruence).
    rewrite L. eexists. eexists. reflexivity.
Qed.

End Lifecycle.


Lemma login_writes_only_refresh_token_witness :
  exists resp w',
    loginUser (P := Demo.platform) 0 Demo.aliceLogin Demo.world0
      = (inr resp, w') /\
    UserModel.lookupId 2 (db w') = UserModel.lookupId 2 (db Demo.world0) /\
    map u_id (db w') = map u_id (db Demo.world0).
Proof.
  eexists. eexists. split; [vm_compute; reflexivity|].
  edestruct (login_writes_only_refresh_token (P := Demo.platform) 0
               Demo.aliceLogin Demo.world0)
    as (u & u' & _ & _ & Hd & _ & Hsel & Hother & Hids);
    [vm_compute; reflexivity|].
  split; [|exact Hids].
  apply Hother.
  pose proof (f_equal (fun d => match d with
                                | DLogin (Some p) _ _ => s_id p
                                | _ => 0
                                end) Hd) as Hid.
  cbv beta iota in Hid. rewrite Hsel in Hid. simpl in Hid.
  rewrite <- Hid. discriminate.
Defined.

Lemma login_then_refresh_succeeds_witness :
  exists resp1 w1 resp2 w2,
    loginUser (P := Demo.platform) 0 Demo.aliceLogin Demo.world0
      = (inr resp1, w1) /\
    refreshAccessToken (P := Demo.platform) 3 (Demo.refreshWith "rk.1.0") w1
      = (inr resp2, w2).
Proof.
  eexists. eexists.
  edestruct (login_then_refresh_succeeds (P := Demo.platform) 0 3
               Demo.aliceLogin (Demo.refreshWith "rk.1.0") Demo.world0)
    as (resp2 & w2 & u & H & _);
    [vm_compute; reflexivity | vm_compute; reflexivity | reflexivity
     | reflexivity | vm_compute; reflexivity |].
  exists resp2, w2. split; [vm_compute; reflexivity|exact H].
Defined.

Lemma rotation_revokes_consumed_token_witness :
  exists resp w1 e w2,
    refreshAccessToken (P := Demo.platform) 3 (Demo.refreshWith "rk.1.0")
      (Demo.loggedIn 0) = (inr resp, w1) /\
    refreshAccessToken (P := Demo.platform) 5 (Demo.refreshWith "rk.1.0") w1
      = (inl e, w2) /\
    db w2 = db w1.
Proof.
  eexists. eexists.
  edestruct (rotation_revokes_consumed_token (P := Demo.platform) 3 5
               (Demo.refreshWith "rk.1.0") (Demo.refreshWith "rk.1.0")
               (Demo.loggedIn 0))
    with (u := set_refreshToken Demo.alice (Some "rk.1.0"))
    as (e & w2 & H & Hdb);
    [vm_compute; reflexivity | reflexivity | reflexivity
     | vm_compute; reflexivity | vm_compute; reflexivity
     | vm_compute; discriminate | reflexivity | reflexivity
     | intros decoded H; vm_compute in H; injection H as <-; reflexivity |].
  exists e, w2. split; [vm_compute; reflexivity|]. split; [exact H|exact Hdb].
Defined.

Lemma secret_change_keeps_session_witness :
  exists resp w' resp2' w2',
    changeCurrentpassword (P := Demo.platform)
      (Demo.asAlice (Scenario.passwordBody (Some "wonderland")
                                           (Some "looking-glass")))
      (Demo.loggedIn 0) = (inr resp, w') /\
    refreshAccessToken (P := Demo.platform) 3 (Demo.refreshWith "rk.1.0") w'
      = (inr resp2', w2').
Proof.
  eexists. eexists.
  edestruct (secret_change_keeps_session (P := Demo.platform)
               (Demo.asAlice (Scenario.passwordBody (Some "wonderland")
                                                    (Some "looking-glass")))
               (Demo.loggedIn 0))
    with (now := 3) (req2 := Demo.refreshWith "rk.1.0")
    as (resp2' & w2' & H);
    [vm_compute; reflexivity | vm_compute; reflexivity |].
  exists resp2', w2'. split; [vm_compute; reflexivity|exact H].
Defined.

(* ===================================================================== *)
(** ** The gate and the secured routes *)
(* ===================================================================== *)

Section Routes.
Context {P : Platform}.
Import UserModel UserHooks UserUpdates.

(** X6. Where the gate takes the access token from: a non-empty
    [accessToken] cookie wins over the header; without one, the header
    [Authorization: Bearer t] gives [t]; and a header that is just
    "Bearer " with nothing after it counts as no credential. *)
Theorem gate_token_sources (req : Request) (t : string) :
  t <> "" ->
  (forall jar, cookies req = Some jar -> c_accessToken jar = Some t ->
               Js.nonEmpty (accessTokenOf req) = Some t) /\
  ((forall jar, cookies req = Some jar ->
                Js.truthy (c_accessToken jar) = false) ->
   (authorization req = Some ("Bearer " ++ t)%string ->
    Js.nonEmpty (accessTokenOf req) = Some t) /\
   (authorization req = Some "Bearer " ->
    Js.nonEmpty (accessTokenOf req) = None)).
Proof.
  intros Hne.
  assert (Ht : (t =? "") = false) by now apply String.eqb_neq.
  split.
  - intros jar Hc Ha. unfold accessTokenOf, Js.orElse. rewrite Hc, Ha.
    simpl. now rewrite Ht; simpl; rewrite Ht.
  - intros Hno.
    assert (Hcookie : Js.truthy (match cookies req with
                                 | Some jar => c_accessToken jar
                                 | None => None
                                 end) = false).
    { destruct (cookies req) as [jar|]; [now apply Hno|reflexivity]. }
    unfold accessTokenOf, Js.orElse. rewrite Hcookie. split.
    + intros ->. cbv [option_map].
      rewrite (replace_prefix "Bearer " "" t). simpl. now rewrite Ht.
    + intros ->. reflexivity.
Qed.

(** X7. When the gate lets a request through, the token it read
    verifies for a principal that is stored, the request goes on with
    that principal's projection (no secret, no refresh value) bound as
    [req.user] and is otherwise the request that came in, and the
    collection is untouched. *)
Theorem gate_binds_stored_principal
  (now : Time) (req req' : Request) (w w' : World) :
  asyncHandler (VerifyJWT now req) w = (Done req', w') ->
  exists token u,
    Js.nonEmpty (accessTokenOf req) = Some token /\
    jwt_verify now token ACCESS_TOKEN_SECRET = inr (Some (Some (u_id u))) /\
    lookupId (u_id u) (db w) = Some u /\
    req' = set_user req (select u) /\
    db w' = db w.
Proof.
  unfold asyncHandler. rewrite verify_run.
  destruct (Js.nonEmpty (accessTokenOf req)) as [token|]; [|discriminate].
  destruct (jwt_verify now token ACCESS_TOKEN_SECRET) as [e0|decoded] eqn:Hv;
    [discriminate|].
  cbv zeta.
  destruct decoded as [[i|]|]; try discriminate.
  destruct (lookupId i (db w)) as [u|] eqn:L; [|discriminate].
  intros H; injection H as <- <-.
  pose proof (lookupId_id _ _ _ L) as Hid. subst i.
  exists token, u. repeat split; assumption.
Qed.

(** The converse: a token that verifies for a stored principal passes. *)
Lemma gate_passes (now : Time) (req : Request) (w : World)
  (token : string) (u : User) :
  Js.nonEmpty (accessTokenOf req) = Some token ->
  jwt_verify now token ACCESS_TOKEN_SECRET = inr (Some (Some (u_id u))) ->
  lookupId (u_id u) (db w) = Some u ->
  asyncHandler (VerifyJWT now req) w =
    (Done (set_user req (select u)),
     {| db := db w; dblog := dblog w ++ [OpFindById (Some (u_id u))] |}).
Proof.
  intros Ht Hv L. unfold asyncHandler.
  rewrite verify_run, Ht, Hv. cbv beta iota zeta. rewrite L. reflexivity.
Qed.

(** A request the gate turns away is answered by the gate alone. *)
Lemma gate_fails (now : Time) (req : Request) (w : World) :
  (Js.nonEmpty (accessTokenOf req) = None \/
   exists token e,
     Js.nonEmpty (accessTokenOf req) = Some token /\
     jwt_verify now token ACCESS_TOKEN_SECRET = inl e) ->
  exists err, asyncHandler (VerifyJWT now req) w = (NextErr err, w).
Proof.
  unfold asyncHandler. rewrite verify_run.
  intros [Hn | (token & e & Ht & Hv)].
  - rewrite Hn. eexists. reflexivity.
  - rewrite Ht, Hv. eexists. reflexivity.
Qed.

(** X8. Round trip of login and gate: the access token a login returns,
    sent back as the [accessToken] cookie or as a Bearer header while
    the token library verifies it for that principal, passes the gate,
    and the gate binds the very profile the login answered with. *)
Theorem login_then_gate_binds_same_principal
  (now1 now2 : Time) (req1 req2 : Request) (w0 w1 : World)
  (resp1 : Response) (p : SafeUser) (access : string)
  (refresh : option string) :
  loginUser now1 req1 w0 = (inr resp1, w1) ->
  r_data (json resp1) = DLogin (Some p) (Some access) refresh ->
  Js.nonEmpty (accessTokenOf req2) = Some access ->
  jwt_verify now2 access ACCESS_TOKEN_SECRET = inr (Some (Some (s_id p))) ->
  exists w2,
    asyncHandler (VerifyJWT now2 req2) w1 = (Done (set_user req2 p), w2) /\
    db w2 = db w1.
Proof.
  intros H1 D1 Ht Hv.
  apply login_success in H1. destruct H1 as (u0 & _ & _ & Hst & Hd & _).
  rewrite Hd in D1. injection D1 as <- <- _.
  eexists. split.
  - exact (gate_passes now2 req2 w1 _
             (set_refreshToken u0 (Some (generateRefreshToken u0 now1)))
             Ht Hv Hst).
  - reflexivity.
Qed.

(** X9. The refresh route is behind the gate: a refresh request whose
    access token is absent, or is refused by the token library (expired,
    say), is turned away by the gate whatever refresh token it carries;
    the refresh handler does not run, nothing is minted and the store is
    left exactly as it was. *)
Theorem refresh_route_needs_access_token
  (now : Time) (req : Request) (w : World) :
  (Js.nonEmpty (accessTokenOf req) = None \/
   exists token e,
     Js.nonEmpty (accessTokenOf req) = Some token /\
     jwt_verify now token ACCESS_TOKEN_SECRET = inl e) ->
  exists err, refreshTokenRoute now req w = (NextErr err, w).
Proof.
  intros H. destruct (gate_fails now req w H) as [err Herr].
  exists err. unfold refreshTokenRoute, secured. now rewrite Herr.
Qed.

(** X10. Logout through its route: for a request whose access token
    verifies for a stored principal, the route answers 200, clears both
    cookies, and leaves the empty string as that principal's refresh
    value; every other record is what it was. *)
Theorem logout_route_clears_session
  (now : Time) (req : Request) (w : World) (token : string) (u : User) :
  Js.nonEmpty (accessTokenOf req) = Some token ->
  jwt_verify now token ACCESS_TOKEN_SECRET = inr (Some (Some (u_id u))) ->
  lookupId (u_id u) (db w) = Some u ->
  exists resp w',
    logoutRoute now req w = (Done resp, w') /\
    status resp = 200%Z /\
    cookieOps resp = [ClearCookie "accessToken"; ClearCookie "refreshToken"] /\
    lookupId (u_id u) (db w') = Some (set_refreshToken u (Some "")) /\
    (forall id, id <> u_id u -> lookupId id (db w') = lookupId id (db w)).
Proof.
  intros Ht Hv L. unfold logoutRoute, secured.
  rewrite (gate_passes now req w token u Ht Hv L).
  unfold asyncHandler. rewrite logout_run.
  unfold set_user, select. cbn [user s_id db]. rewrite L.
  eexists. eexists. split; [reflexivity|].
  split; [reflexivity|]. split; [reflexivity|]. simpl db. split.
  - exact (lookupId_replaceId_same (set_refreshToken u (Some "")) u (db w) L).
  - intros id N. now apply lookupId_replaceId_other.
Qed.

(** X11. The current-user route answers with the stored profile of the
    principal the access token names, and writes nothing. *)
Theorem current_user_route_returns_profile
  (now : Time) (req : Request) (w : World) (token : string) (u : User) :
  Js.nonEmpty (accessTokenOf req) = Some token ->
  jwt_verify now token ACCESS_TOKEN_SECRET = inr (Some (Some (u_id u))) ->
  lookupId (u_id u) (db w) = Some u ->
  exists w',
    currentUserRoute now req w =
      (Done {| status := 200;
               cookieOps := [];
               json := ApiResponse_new 200 (DUser (select u))
                         "USER DATA FETCHED SUCCESSFULLY" |}, w') /\
    db w' = db w.
Proof.
  intros Ht Hv L. unfold currentUserRoute, secured.
  rewrite (gate_passes now req w token u Ht Hv L).
  eexists. split; reflexivity.
Qed.

End Routes.

Lemma gate_token_sources_witness :
  Js.nonEmpty (accessTokenOf (Scenario.withBearer "ak.1.0" emptyBody))
    = Some "ak.1.0" /\
  Js.nonEmpty (accessTokenOf (Scenario.bothTokens "ak.1.0" "rk.1.0"))
    = Some "ak.1.0".
Proof.
  split.
  - refine (proj1 (proj2 (gate_token_sources
                            (Scenario.withBearer "ak.1.0" emptyBody)
                            "ak.1.0" _) _) _).
    + discriminate.
    + intros jar H. injection H as <-. reflexivity.
    + reflexivity.
  - refine (proj1 (gate_token_sources
                     (Scenario.bothTokens "ak.1.0" "rk.1.0") "ak.1.0" _)
                  _ eq_refl eq_refl).
    discriminate.
Defined.

Lemma gate_binds_stored_principal_witness :
  exists req' w',
    asyncHandler (VerifyJWT (P := Demo.platform) 3
                    (Scenario.withAccessCookie "ak.1.0" emptyBody))
      Demo.world0 = (Done req', w') /\
    user req' = Some (select Demo.alice) /\
    db w' = db Demo.world0.
Proof.
  eexists. eexists. split; [vm_compute; reflexivity|].
  edestruct (gate_binds_stored_principal (P := Demo.platform) 3
               (Scenario.withAccessCookie "ak.1.0" emptyBody))
    with (w := Demo.world0)
    as (token & u & _ & _ & _ & _ & Hdb); [vm_compute; reflexivity|].
  split; [reflexivity|exact Hdb].
Defined.

Lemma login_then_gate_binds_same_principal_witness :
  exists resp1 w1 w2,
    loginUser (P := Demo.platform) 0 Demo.aliceLogin Demo.world0
      = (inr resp1, w1) /\
    asyncHandler (VerifyJWT (P := Demo.platform) 3
                    (Scenario.withBearer "ak.1.0" emptyBody)) w1
      = (Done (set_user (Scenario.withBearer "ak.1.0" emptyBody)
                        (select Demo.alice)), w2) /\
    db w2 = db w1.
Proof.
  eexists. eexists.
  edestruct (login_then_gate_binds_same_principal (P := Demo.platform) 0 3
               Demo.aliceLogin (Scenario.withBearer "ak.1.0" emptyBody)
               Demo.world0)
    as (w2 & H & Hdb);
    [vm_compute; reflexivity | vm_compute; reflexivity
     | vm_compute; reflexivity | vm_compute; reflexivity |].
  exists w2. split; [vm_compute; reflexivity|]. split; [exact H|exact Hdb].
Defined.

Lemma refresh_route_needs_access_token_witness :
  exists err,
    refreshTokenRoute (P := Demo.platform) 3 (Demo.refreshWith "rk.1.0")
      (Demo.loggedIn 0) = (NextErr err, Demo.loggedIn 0).
Proof.
  apply (refresh_route_needs_access_token (P := Demo.platform) 3
           (Demo.refreshWith "rk.1.0") (Demo.loggedIn 0)).
  left. reflexivity.
Defined.

Lemma logout_route_clears_session_witness :
  exists resp w',
    logoutRoute (P := Demo.platform) 3
      (Scenario.withAccessCookie "ak.1.0" emptyBody) (Demo.loggedIn 0)
      = (Done resp, w') /\
    option_map u_refreshToken (UserModel.lookupId 1 (db w')) = Some (Some "").
Proof.
  edestruct (logout_route_clears_session (P := Demo.platform) 3
               (Scenario.withAccessCookie "ak.1.0" emptyBody)
               (Demo.loggedIn 0) "ak.1.0"
               (set_refreshToken Demo.alice (Some "rk.1.0")))
    as (resp & w' & H & _ & _ & Hst & _);
    [vm_compute; reflexivity | vm_compute; reflexivity
     | vm_compute; reflexivity |].
  exists resp, w'. split; [exact H|].
  exact (f_equal (option_map u_refreshToken) Hst).
Defined.

Lemma current_user_route_returns_profile_witness :
  exists resp w',
    currentUserRoute (P := Demo.platform) 3
      (Scenario.withAccessCookie "ak.1.0" emptyBody) (Demo.loggedIn 0)
      = (Done resp, w') /\
    r_data (json resp) = DUser (select Demo.alice).
Proof.
  edestruct (current_user_route_returns_profile (P := Demo.platform) 3
               (Scenario.withAccessCookie "ak.1.0" emptyBody)
               (Demo.loggedIn 0) "ak.1.0"
               (set_refreshToken Demo.alice (Some "rk.1.0")))
    as (w' & H & _);
    [vm_compute; reflexivity | vm_compute; reflexivity
     | vm_compute; reflexivity |].
  eexists. exists w'. split; [exact H|reflexivity].
Defined.

(* ===================================================================== *)
(** ** Profile and image updates *)
(* ===================================================================== *)

Section Updates.
Context {P : Platform}.
Import UserModel UserHooks UserUpdates.

Lemma upload_run (localFilePath : option string) (w : World) :
  uploadOnCloudinary localFilePath w =
  match Js.nonEmpty localFilePath with
  | None => (inr (UploadRefused (ApiError 401 "localfilePath not found")), w)
  | Some path =>
      match cloudinary_upload path with
      | Some url => (inr (UploadResponse url), w)
      | None => (inl (ApiError 500 "cloudinary error"), w)
      end
  end.
Proof.
  unfold uploadOnCloudinary, tryCatch, bind, lift, ret, throw.
  destruct (Js.nonEmpty localFilePath) as [path|]; [|reflexivity].
  destruct (cloudinary_upload path); reflexivity.
Qed.

(** Both image handlers, with the setter and the message of each. *)
Lemma image_update_run
  (handler : option File -> Request -> M Response)
  (set : User -> string -> User) (message : string)
  (file : option File) (req : Request) (w : World) :
  (handler = updateUserAvatar /\ set = set_avatar /\
   message = "AVATAR UPDATED SUCCESSFULLY") \/
  (handler = updateUserCoverImage /\ set = set_coverImage /\
   message = "COVER IMAGE UPDATED SUCCESSFULLY") ->
  handler file req w =
  match Js.nonEmpty (match file with Some f => f_path f | None => None end) with
  | None => (inl (ApiError 400 "Please select an image"), w)
  | Some path =>
      match cloudinary_upload path with
      | None => (inl (ApiError 500 "cloudinary error"), w)
      | Some url =>
          if url =? "" then (inl (ApiError 500 "Cloudinary error"), w)
          else
            match user req with
            | None => (inl TypeError, w)
            | Some requester =>
                let lg := dblog w ++ [OpFindByIdAndUpdate (s_id requester)] in
                match lookupId (s_id requester) (db w) with
                | Some u =>
                    (inr {| status := 200;
                            cookieOps := [];
                            json := ApiResponse_new 200
                                      (DUser (select (set u url))) message |},
                     {| db := replaceId (set u url) (db w); dblog := lg |})
                | None =>
                    (inr {| status := 200;
                            cookieOps := [];
                            json := ApiResponse_new 200 DNull message |},
                     {| db := db w; dblog := lg |})
                end
            end
      end
  end.
Proof.
  intros [(-> & -> & ->) | (-> & -> & ->)].
  all: unfold updateUserAvatar, updateUserCoverImage.
  all: set (path := match file with Some f => f_path f | None => None end).
  all: destruct (Js.nonEmpty path) as [p|] eqn:Hp;
    [|apply truthy_nonEmpty in Hp; rewrite Hp; reflexivity].
  all: assert (Ht : Js.truthy path = true)
    by (destruct (Js.truthy path) eqn:T; [reflexivity|];
        apply truthy_nonEmpty in T; congruence).
  all: rewrite Ht; cbn [negb]; unfold bind at 1; rewrite upload_run, Hp.
  all: destruct (cloudinary_upload p) as [url|]; [|reflexivity].
  all: cbn [url_of Js.nonEmpty].
  all: destruct (url =? ""); [reflexivity|].
  all: destruct (user req) as [requester|]; [|reflexivity].
  all: cbv beta iota zeta delta
         [bind findByIdAndUpdate logOp getDb putDb ret throw db dblog updatedData].
  all: destruct w as [l lg0].
  all: destruct (lookupId (s_id requester) l); reflexivity.
Qed.

Lemma update_account_run (req : Request) (w : World) :
  UpdateAccountDetails req w =
  match Js.nonEmpty (b_fullName (body req)), Js.nonEmpty (b_email (body req)) with
  | Some fullName, Some email =>
      match user req with
      | None => (inl TypeError, w)
      | Some requester =>
          let lg := dblog w ++ [OpFindByIdAndUpdate (s_id requester)] in
          match lookupId (s_id requester) (db w) with
          | Some u =>
              if existsb (fun v => negb (u_id v =? s_id requester)%nat
                                   && (u_email v =? email)) (db w)
              then (inl DuplicateKeyError, {| db := db w; dblog := lg |})
              else
                (inr {| a_status := 200;
                        a_statusCode := 200;
                        a_data := Some (selectSansPassword
                                          (set_profile u fullName email));
                        a_message := "ACCOUNT DETAILS UPDATED SUCCESSFULLY";
                        a_success := true |},
                 {| db := replaceId (set_profile u fullName email) (db w);
                    dblog := lg |})
          | None =>
              (inr {| a_status := 200;
                      a_statusCode := 200;
                      a_data := None;
                      a_message := "ACCOUNT DETAILS UPDATED SUCCESSFULLY";
                      a_success := true |},
               {| db := db w; dblog := lg |})
          end
      end
  | _, _ => (inl (ApiError 400 "Validation Error"), w)
  end.
Proof.
  unfold UpdateAccountDetails.
  destruct (Js.nonEmpty (b_fullName (body req))) as [fullName|]; [|reflexivity].
  destruct (Js.nonEmpty (b_email (body req))) as [email|]; [|reflexivity].
  destruct (user req) as [requester|]; [|reflexivity].
  cbv beta iota zeta delta
    [bind findByIdAndUpdate_profile logOp getDb putDb ret throw db dblog].
  destruct w as [l lg0].
  destruct (lookupId (s_id requester) l); [|reflexivity].
  destruct (existsb _ l); reflexivity.
Qed.

(** Two records that differ at most in the avatar, in the cover image,
    or in the display name and address. *)
Lemma frame_replaceId (u v : User) (l : list User) (id : nat) (x : User) :
  lookupId (u_id u) l = Some u ->
  u_id v = u_id u ->
  lookupId id l = Some x ->
  lookupId id (replaceId v l) = Some (if (id =? u_id u)%nat then v else x).
Proof.
  intros Lu Hid Lx.
  destruct (Nat.eqb_spec id (u_id u)) as [E|E].
  - subst id. rewrite <- Hid in Lu |- *.
    exact (lookupId_replaceId_same v u l Lu).
  - rewrite lookupId_replaceId_other by congruence. exact Lx.
Qed.

(** An image update that is answered with an error has left the world
    as it was. *)
Lemma image_update_failure_inv
  (handler : option File -> Request -> M Response)
  (set : User -> string -> User) (message : string)
  (file : option File) (req : Request) (w w' : World) (e : JsError) :
  (handler = updateUserAvatar /\ set = set_avatar /\
   message = "AVATAR UPDATED SUCCESSFULLY") \/
  (handler = updateUserCoverImage /\ set = set_coverImage /\
   message = "COVER IMAGE UPDATED SUCCESSFULLY") ->
  handler file req w = (inl e, w') -> w' = w.
Proof.
  intros Hwhich.
  rewrite (image_update_run handler set message file req w Hwhich).
  destruct (Js.nonEmpty _) as [path|]; [|intros H; now injection H as _ <-].
  destruct (cloudinary_upload path) as [url|];
    [|intros H; now injection H as _ <-].
  destruct (url =? ""); [intros H; now injection H as _ <-|].
  destruct (user req) as [requester|]; [|intros H; now injection H as _ <-].
  cbv zeta. destruct (lookupId (s_id requester) (db w)); discriminate.
Qed.


(** What an image update that succeeds has done, for either handler. *)
Lemma image_update_success
  (handler : option File -> Request -> M Response)
  (set : User -> string -> User) (message : string)
  (file : option File) (req : Request) (w w' : World) (resp : Response) :
  (handler = updateUserAvatar /\ set = set_avatar /\
   message = "AVATAR UPDATED SUCCESSFULLY") \/
  (handler = updateUserCoverImage /\ set = set_coverImage /\
   message = "COVER IMAGE UPDATED SUCCESSFULLY") ->
  handler file req w = (inr resp, w') ->
  status resp = 200%Z /\
  map u_id (db w') = map u_id (db w) /\
  (forall id x, lookupId id (db w) = Some x ->
     exists x' url', lookupId id (db w') = Some x' /\ x' = set x url') /\
  exists requester path url,
    user req = Some requester /\
    Js.nonEmpty (match file with Some f => f_path f | None => None end)
      = Some path /\
    cloudinary_upload path = Some url /\
    (forall u, lookupId (s_id requester) (db w) = Some u ->
       lookupId (s_id requester) (db w') = Some (set u url) /\
       r_data (json resp) = DUser (select (set u url))) /\
    (lookupId (s_id requester) (db w) = None ->
       r_data (json resp) = DNull /\ db w' = db w).
Proof.
  intros Hwhich.
  assert (Hset : (forall x url, u_id (set x url) = u_id x) /\
                 (forall x, exists url, x = set x url)).
  { destruct Hwhich as [(_ & -> & _) | (_ & -> & _)]; split;
      try reflexivity; intros x;
      [exists (u_avatar x)|exists (u_coverImage x)]; destruct x; reflexivity. }
  destruct Hset as [Hsetid Hsame].
  rewrite (image_update_run handler set message file req w Hwhich).
  destruct (Js.nonEmpty _) as [path|]; [|discriminate].
  destruct (cloudinary_upload path) as [url|] eqn:Hu; [|discriminate].
  destruct (url =? ""); [discriminate|].
  destruct (user req) as [requester|]; [|discriminate]. cbv zeta.
  destruct (lookupId (s_id requester) (db w)) as [u|] eqn:L.
  - intros H; injection H as <- <-. simpl db.
    pose proof (lookupId_id _ _ _ L) as Hid. rewrite <- Hid in L.
    pose proof (lookupId_replaceId_same (set u url) u (db w)) as Hst.
    rewrite Hsetid in Hst. specialize (Hst L).
    split; [reflexivity|]. split.
    { rewrite <- (ids_replaceId (set u url) (db w)). reflexivity. }
    split.
    + intros id x Lx.
      rewrite (frame_replaceId u (set u url) (db w) id x L (Hsetid u url) Lx).
      destruct (Nat.eqb_spec id (u_id u)) as [E|E].
      * subst id. assert (x = u) by congruence. subst x.
        exists (set u url), url. split; reflexivity.
      * destruct (Hsame x) as [url0 Hx]. exists x, url0. split; [reflexivity|exact Hx].
    + exists requester, path, url.
      split; [reflexivity|]. split; [reflexivity|]. split; [exact Hu|].
      rewrite <- Hid. split.
      * intros u0 L0. rewrite L in L0. injection L0 as <-.
        split; [exact Hst|reflexivity].
      * intros N. congruence.
  - intros H; injection H as <- <-. simpl db.
    split; [reflexivity|]. split; [reflexivity|]. split.
    + intros id x Lx. destruct (Hsame x) as [url0 Hx].
      exists x, url0. split; [exact Lx|exact Hx].
    + exists requester, path, url.
      split; [reflexivity|]. split; [reflexivity|]. split; [exact Hu|].
      split; [intros u0 L0; congruence|]. intros _. split; reflexivity.
Qed.



(** X15. The account update rejects a request whose [fullName] or
    [email] is absent or empty with 400 "Validation Error" before the
    store is consulted. *)
Theorem account_update_requires_both_fields (req : Request) (w : World) :
  Js.truthy (b_fullName (body req)) = false \/
  Js.truthy (b_email (body req)) = false ->
  UpdateAccountDetails req w = (inl (ApiError 400 "Validation Error"), w).
Proof.
  intros H. rewrite update_account_run.
  destruct H as [H|H]; apply truthy_nonEmpty in H; rewrite H;
    [reflexivity|].
  destruct (Js.nonEmpty (b_fullName (body req))); reflexivity.
Qed.

(** X16. An account update that succeeds writes the two fields of the
    requesting principal and nothing else, and it answers with that
    principal's document without the secret but with the stored refresh
    value in it: the projection of this handler leaves [refreshToken]
    in. *)
Theorem account_update_answers_with_refresh_token
  (req : Request) (w w' : World) (resp : AccountResponse) (view : AccountView) :
  UpdateAccountDetails req w = (inr resp, w') ->
  a_data resp = Some view ->
  exists requester u fullName email,
    user req = Some requester /\
    Js.nonEmpty (b_fullName (body req)) = Some fullName /\
    Js.nonEmpty (b_email (body req)) = Some email /\
    lookupId (s_id requester) (db w) = Some u /\
    lookupId (s_id requester) (db w') = Some (set_profile u fullName email) /\
    view = selectSansPassword (set_profile u fullName email) /\
    v_refreshToken view = u_refreshToken u /\
    (forall id, id <> s_id requester ->
                lookupId id (db w') = lookupId id (db w)).
Proof.
  rewrite update_account_run.
  destruct (Js.nonEmpty (b_fullName (body req))) as [fullName|]; [|discriminate].
  destruct (Js.nonEmpty (b_email (body req))) as [email|]; [|discriminate].
  destruct (user req) as [requester|]; [|discriminate]. cbv zeta.
  destruct (lookupId (s_id requester) (db w)) as [u|] eqn:L.
  - destruct (existsb _ (db w)); [discriminate|].
    intros H; injection H as <- <-. simpl a_data. intros Hv; injection Hv as <-.
    pose proof (lookupId_id _ _ _ L) as Hid.
    exists requester, u, fullName, email. simpl db.
    split; [reflexivity|]. split; [reflexivity|]. split; [reflexivity|].
    split; [exact L|]. split.
    + rewrite <- Hid in L |- *.
      exact (lookupId_replaceId_same (set_profile u fullName email) u (db w) L).
    + split; [reflexivity|]. split; [reflexivity|].
      intros id N. apply lookupId_replaceId_other. simpl. congruence.
  - intros H; injection H as <- <-. simpl a_data. discriminate.
Qed.

(** X17. No handler other than registration adds or removes a
    principal: after a login, a logout, a refresh, a secret change, an
    image update or an account update, whether it succeeded or not, the
    stored ids are the ones that were there. *)
Theorem principals_are_stable
  (now : Time) (file : option File) (req : Request) (w : World) :
  map u_id (db (snd (loginUser now req w))) = map u_id (db w) /\
  map u_id (db (snd (logOutUser req w))) = map u_id (db w) /\
  map u_id (db (snd (refreshAccessToken now req w))) = map u_id (db w) /\
  map u_id (db (snd (changeCurrentpassword req w))) = map u_id (db w) /\
  map u_id (db (snd (updateUserAvatar file req w))) = map u_id (db w) /\
  map u_id (db (snd (updateUserCoverImage file req w))) = map u_id (db w) /\
  map u_id (db (snd (UpdateAccountDetails req w))) = map u_id (db w).
Proof.
  assert (Himg : forall handler set message,
             (handler = updateUserAvatar /\ set = set_avatar /\
              message = "AVATAR UPDATED SUCCESSFULLY") \/
             (handler = updateUserCoverImage /\ set = set_coverImage /\
              message = "COVER IMAGE UPDATED SUCCESSFULLY") ->
             map u_id (db (snd (handler file req w))) = map u_id (db w)).
  { intros handler set message Hwhich.
    destruct (handler file req w) as [[e|resp] w'] eqn:H; simpl snd.
    - now rewrite (image_update_failure_inv handler set message file req
                     w w' e Hwhich H).
    - exact (proj1 (proj2 (image_update_success handler set message file req
                             w w' resp Hwhich H))). }
  repeat split.
  - destruct (loginUser now req w) as [[e|resp] w'] eqn:H; simpl snd.
    + now rewrite (login_failure_inv now req w w' e H).
    + apply login_success in H. destruct H as (u & _ & -> & _).
      apply ids_replaceId.
  - rewrite logout_run. destruct (user req) as [p|]; [|reflexivity].
    simpl. destruct (lookupId (s_id p) (db w)); [apply ids_replaceId|reflexivity].
  - destruct (refreshAccessToken now req w) as [[e|resp] w'] eqn:H; simpl snd.
    + now rewrite (refresh_failure_inv now req w w' e H).
    + apply refresh_success_inv in H.
      destruct H as (jar & incoming & u & _ & _ & _ & _ & _ & ->).
      apply ids_replaceId.
  - rewrite change_password_run.
    destruct (user req) as [requester|]; [|reflexivity]. cbv zeta.
    destruct (lookupId _ (db w)) as [u|]; [|reflexivity].
    destruct (isPasswordCorrect u _) as [e0|[|]]; try reflexivity.
    destruct (b_newPassword (body req)); [|reflexivity].
    simpl. apply ids_replaceId.
  - exact (Himg updateUserAvatar set_avatar _ (or_introl (conj eq_refl (conj eq_refl eq_refl)))).
  - exact (Himg updateUserCoverImage set_coverImage _ (or_intror (conj eq_refl (conj eq_refl eq_refl)))).
  - rewrite update_account_run.
    destruct (Js.nonEmpty (b_fullName (body req))); [|reflexivity].
    destruct (Js.nonEmpty (b_email (body req))); [|reflexivity].
    destruct (user req) as [requester|]; [|reflexivity]. cbv zeta.
    destruct (lookupId _ (db w)) as [u|]; [|reflexivity].
    destruct (existsb _ (db w)); [reflexivity|].
    simpl. apply ids_replaceId.
Qed.

End Updates.

(* ===================================================================== *)
(** ** Registration, continued *)
(* ===================================================================== *)

Section Registration.
Context {P : Platform}.
Import UserModel UserHooks.

Lemma lookupId_created (l : list User) (u : User) :
  u_id u = freshId l ->
  lookupId (freshId l) (l ++ [u]) = Some u.
Proof.
  intros Hid. rewrite <- Hid. apply lookupId_app_new.
  rewrite Hid. apply lookupId_None_notin. apply freshId_notin.
Qed.

(** The two ways a registration ends: with an error and the collection
    as it was, or with one new record appended, built from the request
    as follows. *)
Lemma register_outcome (req : Request) (w : World) :
  match registerUser req w with
  | (inl e, w') => db w' = db w
  | (inr resp, w') =>
      exists handle fullName email password avatarUrl cover,
        b_username (body req) = Some handle /\
        b_fullName (body req) = Some fullName /\
        b_email (body req) = Some email /\
        b_password (body req) = Some password /\
        existsb isBlank [Some fullName; Some email; Some handle; Some password]
          = false /\
        find (matchesFilter (Some handle) (Some email)) (db w) = None /\
        (match files req with
         | Some fs => f_coverImage fs = None -> cover = ""
         | None => True
         end) /\
        let created :=
          {| u_id := freshId (db w);
             u_username := Js.toLowerCase handle;
             u_email := email;
             u_fullName := fullName;
             u_password := hashPassword password;
             u_avatar := avatarUrl;
             u_coverImage := cover;
             u_refreshToken := None |} in
        db w' = db w ++ [created] /\
        resp = {| status := 200;
                  cookieOps := [];
                  json := ApiResponse_new 200 (DUser (select created))
                            "USER CREATED" |}
  end.
Proof.
  unfold registerUser.
  cbv beta iota zeta delta
    [bind lift findOne findById create uploadOnCloudinary tryCatch
     avatarPath coverImagePath logOp getDb putDb ret throw].
  destruct w as [l lg].
  cbn [db dblog Js.nonEmpty Js.truthy negb].
  repeat (first [ rewrite lookupId_created by reflexivity
                | case_scrutinee ];
          cbn [db dblog n_fullName n_email n_password n_avatar n_username
               n_coverImage url_of u_id Js.nonEmpty Js.truthy negb];
          cbv beta iota);
    try reflexivity.
  all: do 6 eexists.
  all: do 4 (split; [reflexivity|]).
  all: split; [congruence|]. all: split; [congruence|].
  all: cbv zeta; split; [|split; reflexivity].
  all: first [exact I | intros H; discriminate H | intros _; reflexivity].
Qed.

(** A request that passes the presence check and matches a stored record
    on the handle key or on the address is refused with 409. *)
Lemma register_conflict (req : Request) (w : World) (u : User) :
  existsb isBlank [b_fullName (body req); b_email (body req);
                   b_username (body req); b_password (body req)] = false ->
  In u (db w) ->
  matchesFilter (b_username (body req)) (b_email (body req)) u = true ->
  exists w',
    registerUser req w = (inl (ApiError 409 "USER ALREADY EXISTS"), w') /\
    db w' = db w.
Proof.
  intros Hb Hin Hm. unfold registerUser. rewrite Hb.
  cbv beta iota zeta delta [bind findOne logOp getDb ret throw db dblog].
  destruct w as [l lg]. simpl in Hin.
  destruct (find_matching _ l u Hin Hm) as [v Hv].
  rewrite Hv. eexists. split; reflexivity.
Qed.

Lemma find_snoc_new {A : Type} (f : A -> bool) (l : list A) (x : A) :
  (forall y, In y l -> f y = false) -> f x = true ->
  find f (l ++ [x]) = Some x.
Proof.
  intros Hl Hx. induction l as [|y l IH]; simpl.
  - now rewrite Hx.
  - rewrite (Hl y (or_introl eq_refl)). apply IH.
    intros z Hz. apply Hl. now right.
Qed.

Lemma NoDup_snoc {A : Type} (l : list A) (x : A) :
  NoDup l -> ~ In x l -> NoDup (l ++ [x]).
Proof.
  intros Hl Hx. apply NoDup_app; [exact Hl|repeat constructor; intros []|].
  intros a Ha [<-|[]]. contradiction.
Qed.



(** X20. Registering is not repeatable: after a registration that
    succeeded, a further request that passes the presence check and
    carries the same handle in any letter case, or the same address, is
    refused with 409 "USER ALREADY EXISTS" and creates nothing. *)
Theorem registration_twice_conflicts
  (req req2 : Request) (w w1 : World) (resp : Response)
  (handle email : string) :
  registerUser req w = (inr resp, w1) ->
  b_username (body req) = Some handle ->
  b_email (body req) = Some email ->
  (forall s, In (Some s) [b_fullName (body req2); b_email (body req2);
                          b_username (body req2); b_password (body req2)] ->
             Js.trim s <> "") ->
  (exists handle2, b_username (body req2) = Some handle2 /\
                   Js.toLowerCase handle2 = Js.toLowerCase handle) \/
  b_email (body req2) = Some email ->
  exists w2,
    registerUser req2 w1 = (inl (ApiError 409 "USER ALREADY EXISTS"), w2) /\
    db w2 = db w1.
Proof.
  intros H Hh He Hpresent Hsame.
  pose proof (register_outcome req w) as O. rewrite H in O.
  destruct O as (handle0 & fullName & email0 & password & avatarUrl & cover
                 & Hh0 & _ & He0 & _ & _ & _ & _ & Hdb & _).
  rewrite Hh in Hh0. injection Hh0 as <-.
  rewrite He in He0. injection He0 as <-.
  apply anyBlank_false in Hpresent.
  eapply register_conflict; [exact Hpresent| |].
  - rewrite Hdb. apply in_or_app. right. left. reflexivity.
  - unfold matchesFilter, handleKey. cbn [u_username u_email].
    destruct Hsame as [(handle2 & -> & Hk) | ->].
    + rewrite toLowerCase_idempotent, Hk, String.eqb_refl. reflexivity.
    + rewrite String.eqb_refl. apply orb_true_r.
Qed.

(** X21. Registration keeps the keys unique: when no two stored records
    share an id, a handle (letter case ignored) or an address, that is
    still so after any registration request, accepted or refused. *)
Theorem registration_keeps_keys_unique (req : Request) (w : World) :
  NoDup (map u_id (db w)) ->
  NoDup (map (fun u => Js.toLowerCase (u_username u)) (db w)) ->
  NoDup (map u_email (db w)) ->
  let w' := snd (registerUser req w) in
  NoDup (map u_id (db w')) /\
  NoDup (map (fun u => Js.toLowerCase (u_username u)) (db w')) /\
  NoDup (map u_email (db w')).
Proof.
  intros Hid Hhandle Hemail.
  pose proof (register_outcome req w) as O.
  destruct (registerUser req w) as [[e|resp] w'] eqn:H; cbn [snd]; cbv zeta.
  - rewrite O. auto.
  - destruct O as (handle & fullName & email & password & avatarUrl & cover
                   & _ & _ & _ & _ & _ & Hfind & _ & Hdb & _).
    rewrite Hdb, !map_app. cbn [map u_id u_username u_email].
    pose proof (find_none _ _ Hfind) as Hnone.
    split; [|split]; apply NoDup_snoc; try assumption.
    + apply freshId_notin.
    + rewrite toLowerCase_idempotent. intros Hin.
      apply in_map_iff in Hin. destruct Hin as (u & Hk & Hu).
      specialize (Hnone u Hu). unfold matchesFilter, handleKey in Hnone.
      rewrite <- Hk, String.eqb_refl in Hnone. discriminate.
    + intros Hin. apply in_map_iff in Hin. destruct Hin as (u & Hk & Hu).
      specialize (Hnone u Hu). unfold matchesFilter in Hnone.
      rewrite Hk, String.eqb_refl, orb_true_r in Hnone. discriminate.
Qed.

(** X22. The avatar is required after the lookup, not before: a
    request that passes the presence check and matches no stored record
    is refused with 400 "AVATAR LOCAL PATH IS REQUIRED" when it carries
    no files at all, and ends with the runtime's TypeError when it
    carries files but none under [avatar]. *)
Theorem registration_without_avatar (req : Request) (w : World) :
  existsb isBlank [b_fullName (body req); b_email (body req);
                   b_username (body req); b_password (body req)] = false ->
  find (matchesFilter (b_username (body req)) (b_email (body req))) (db w)
    = None ->
  (files req = None ->
   fst (registerUser req w) =
     inl (ApiError 400 "AVATAR LOCAL PATH IS REQUIRED")) /\
  (forall fs, files req = Some fs -> f_avatar fs = None ->
   fst (registerUser req w) = inl TypeError).
Proof.
  intros Hb Hf. unfold registerUser. rewrite Hb.
  cbv beta iota zeta delta
    [bind findOne avatarPath coverImagePath logOp getDb ret throw db dblog].
  destruct w as [l lg]. cbn [db] in Hf. rewrite Hf. split.
  - intros ->. reflexivity.
  - intros fs -> ->. reflexivity.
Qed.

(** X23. Round trip of registration and login: a principal that has
    just been registered is found by a login that names its handle in
    any letter case (and no address); when the secret verifies, the
    login succeeds and answers with the profile the registration
    answered with. *)
Theorem registration_then_login
  (now : Time) (req req2 : Request) (w w1 : World) (resp : Response)
  (created : SafeUser) (handle handle2 : string) :
  registerUser req w = (inr resp, w1) ->
  r_data (json resp) = DUser created ->
  b_username (body req) = Some handle ->
  b_username (body req2) = Some handle2 ->
  handle2 <> "" ->
  Js.toLowerCase handle2 = Js.toLowerCase handle ->
  b_email (body req2) = None ->
  (forall u, lookupId (s_id created) (db w1) = Some u ->
             isPasswordCorrect u (b_password (body req2)) = inr true) ->
  exists resp2 w2 access refresh,
    loginUser now req2 w1 = (inr resp2, w2) /\
    r_data (json resp2) = DLogin (Some created) access refresh.
Proof.
  intros H Hd Hh Hh2 Hne Hk He2 Hpw.
  pose proof (register_outcome req w) as O. rewrite H in O.
  destruct O as (handle0 & fullName & email & password & avatarUrl & cover
                 & Hh0 & _ & _ & _ & _ & Hfind & _ & Hdb & Hresp).
  rewrite Hh in Hh0. injection Hh0 as <-.
  cbv zeta in Hdb, Hresp.
  set (u := {| u_id := freshId (db w);
               u_username := Js.toLowerCase handle;
               u_email := email;
               u_fullName := fullName;
               u_password := hashPassword password;
               u_avatar := avatarUrl;
               u_coverImage := cover;
               u_refreshToken := None |}) in *.
  assert (Hc : created = select u).
  { rewrite Hresp in Hd. simpl in Hd. now injection Hd as <-. }
  assert (Hfound : find (matchesFilter (Some handle2) None) (db w1) = Some u).
  { rewrite Hdb. pose proof (find_none _ _ Hfind) as Hnone.
    apply find_snoc_new.
    - intros y Hy. specialize (Hnone y Hy).
      unfold matchesFilter, handleKey in *.
      apply orb_false_iff in Hnone. destruct Hnone as [Hn _].
      rewrite orb_false_r. now rewrite Hk.
    - unfold matchesFilter, handleKey, u. cbn [u_username].
      now rewrite toLowerCase_idempotent, Hk, String.eqb_refl. }
  assert (Hlook : lookupId (u_id u) (db w1) = Some u).
  { rewrite Hdb. now apply lookupId_created. }
  rewrite login_run, Hh2, He2.
  assert (T : Js.truthy (Some handle2) = true).
  { simpl. destruct (String.eqb_spec handle2 ""); [contradiction|reflexivity]. }
  rewrite T. cbn [negb andb]. cbv zeta. rewrite Hfound.
  assert (Hpwu : isPasswordCorrect u (b_password (body req2)) = inr true).
  { apply Hpw. rewrite Hc. exact Hlook. }
  rewrite Hpwu. rewrite mint_run. simpl db. rewrite Hlook.
  eexists. eexists. eexists. eexists. split; [reflexivity|].
  simpl. 
  pose proof (lookupId_replaceId_same
                (set_refreshToken u (Some (generateRefreshToken u now)))
                u (db w1) Hlook) as Hst.
  simpl u_id in Hst. fold u in Hst. rewrite Hst. simpl. rewrite Hc. reflexivity.
Qed.

End Registration.




Lemma account_update_requires_both_fields_witness :
  UpdateAccountDetails
    (Demo.asAlice (Scenario.profileBody (Some "Alice L") None)) Demo.world0
  = (inl (ApiError 400 "Validation Error"), Demo.world0).
Proof.
  apply (account_update_requires_both_fields
           (Demo.asAlice (Scenario.profileBody (Some "Alice L") None))
           Demo.world0).
  right. reflexivity.
Defined.

Lemma account_update_answers_with_refresh_token_witness :
  exists resp w' view,
    UpdateAccountDetails
      (Demo.asAlice (Scenario.profileBody (Some "Alice L")
                                          (Some "liddell@example.com")))
      (Demo.loggedIn 0) = (inr resp, w') /\
    a_data resp = Some view /\
    v_refreshToken view = Some "rk.1.0".
Proof.
  eexists. eexists. eexists.
  split; [vm_compute; reflexivity|]. split; [reflexivity|].
  edestruct (account_update_answers_with_refresh_token
               (Demo.asAlice (Scenario.profileBody (Some "Alice L")
                                                   (Some "liddell@example.com")))
               (Demo.loggedIn 0))
    as (requester & u & fullName & email & _ & _ & _ & _ & _ & Hview & _);
    [vm_compute; reflexivity | reflexivity |].
  reflexivity.
Defined.



Lemma registration_twice_conflicts_witness :
  exists resp w1 w2,
    registerUser (P := Demo.platform) Scenario.carol Demo.world0
      = (inr resp, w1) /\
    registerUser (P := Demo.platform) Scenario.carolAgain w1
      = (inl (ApiError 409 "USER ALREADY EXISTS"), w2) /\
    db w2 = db w1.
Proof.
  eexists. eexists.
  edestruct (registration_twice_conflicts (P := Demo.platform)
               Scenario.carol Scenario.carolAgain Demo.world0)
    as (w2 & H & Hdb);
    [vm_compute; reflexivity | reflexivity | reflexivity
     | intros s [H|[H|[H|[H|[]]]]]; injection H as <-; vm_compute; discriminate
     | left; exists "CAROL"; split; reflexivity |].
  exists w2. split; [vm_compute; reflexivity|]. split; [exact H|exact Hdb].
Defined.

Lemma registration_keeps_keys_unique_witness :
  NoDup (map u_email
           (db (snd (registerUser (P := Demo.platform) Scenario.carol
                       Demo.world0)))).
Proof.
  refine (proj2 (proj2 (registration_keeps_keys_unique (P := Demo.platform)
                          Scenario.carol Demo.world0 _ _ _))).
  all: vm_compute; repeat constructor; simpl; intuition discriminate.
Defined.

Lemma registration_without_avatar_witness :
  fst (registerUser (P := Demo.platform)
         (Scenario.noFiles Scenario.carol) Demo.world0)
  = inl (ApiError 400 "AVATAR LOCAL PATH IS REQUIRED").
Proof.
  apply (registration_without_avatar (P := Demo.platform)
           (Scenario.noFiles Scenario.carol) Demo.world0);
    vm_compute; reflexivity.
Defined.

Lemma registration_then_login_witness :
  exists resp w1 resp2 w2,
    registerUser (P := Demo.platform) Scenario.carol Demo.world0
      = (inr resp, w1) /\
    loginUser (P := Demo.platform) 2 Scenario.carolLogin w1 = (inr resp2, w2).
Proof.
  eexists. eexists.
  edestruct (registration_then_login (P := Demo.platform) 2
               Scenario.carol Scenario.carolLogin Demo.world0)
    as (resp2 & w2 & access & refresh & H & _);
    [vm_compute; reflexivity | vm_compute; reflexivity | reflexivity
     | reflexivity | discriminate | reflexivity | reflexivity
     | intros u Hu; vm_compute in Hu; injection Hu as <-; reflexivity |].
  exists resp2, w2. split; [vm_compute; reflexivity|exact H].
Defined.

(* ===================================================================== *)
(** ** The channel profile and the watch history *)
(* ===================================================================== *)

Section ChannelFacts.
Context {P : Platform}.
Import UserModel.

Lemma channel_run (subscriptions : list Subscription)
  (username : option string) (req : Request) (w : World) :
  getUserChannelprofile subscriptions username req w =
  if Js.truthy (option_map Js.trim username)
  then
    match matchUsername username (db w) with
    | [] => (inl (ApiError 404 "Channel not found"), w)
    | u :: _ =>
        (inr {| cr_status := 200;
                cr_statusCode := 200;
                cr_data := channelDocument subscriptions
                             (option_map s_id (user req)) u;
                cr_message := "CHANNEL FETCHED SUCCESSFULLY";
                cr_success := true |}, w)
    end
  else (inl (ApiError 400 "Please provide username"), w).
Proof.
  unfold getUserChannelprofile.
  destruct (Js.truthy (option_map Js.trim username)); [|reflexivity].
  cbv beta iota zeta delta [negb bind getDb ret throw].
  destruct (matchUsername username (db w)); reflexivity.
Qed.

Lemma matchUsername_none (name : string) (l : list User) :
  (forall u, In u l -> u_username u <> Js.toLowerCase name) ->
  matchUsername (Some name) l = [].
Proof.
  intros H. induction l as [|x l IH]; [reflexivity|].
  unfold matchUsername in *. cbn [filter option_map Js.strictEq].
  destruct (String.eqb_spec (u_username x) (Js.toLowerCase name)) as [E|E].
  - exfalso. exact (H x (or_introl eq_refl) E).
  - apply IH. intros u Hu. apply H. now right.
Qed.

Lemma matchUsername_unique (name : string) (l : list User) (u : User) :
  NoDup (map u_username l) ->
  In u l ->
  u_username u = Js.toLowerCase name ->
  matchUsername (Some name) l = [u].
Proof.
  intros Hnd Hin Hname. induction l as [|x l IH]; [contradiction|].
  unfold matchUsername in *. cbn [filter option_map Js.strictEq].
  cbn [map] in Hnd. apply NoDup_cons_iff in Hnd. destruct Hnd as [Hx Hnd].
  destruct Hin as [->|Hin].
  - rewrite Hname, String.eqb_refl. f_equal.
    apply (matchUsername_none name l).
    intros v Hv E. apply Hx. rewrite Hname, <- E. now apply in_map.
  - destruct (String.eqb_spec (u_username x) (Js.toLowerCase name)) as [E|E].
    + exfalso. apply Hx. rewrite E, <- Hname. now apply in_map.
    + now apply IH.
Qed.

(** X24. The watch-history route never answers: the handler reads the
    first element of an aggregation it has not awaited, so every
    request that passes the gate ends in the runtime's TypeError, and
    every other request in the gate's rejection; the collection is never
    touched. *)
Theorem watch_history_route_never_answers
  (now : Time) (req : Request) (w : World) :
  exists err w',
    watchHistoryRoute now req w = (NextErr err, w') /\
    db w' = db w /\
    (forall req', asyncHandler (VerifyJWT now req) w = (Done req', w') ->
                  err = TypeError).
Proof.
  unfold watchHistoryRoute, secured.
  destruct (gate_outcome_total now req w) as (o & w' & Ho & Hdb).
  rewrite Ho. destruct o as [req'|err].
  - exists TypeError, w'. split.
    + unfold asyncHandler, getWatchHistory, throw.
      destruct (user req'); reflexivity.
    + split; [exact Hdb|]. reflexivity.
  - exists err, w'. split; [reflexivity|]. split; [exact Hdb|].
    intros req' H. discriminate.
Qed.

(** X25. The channel profile is refused with 400 "Please provide
    username" when the handle is absent or consists of white space
    only, and with 404 "Channel not found" when no stored handle equals
    the lower-case form of the handle asked for; in both cases before
    anything is written. *)
Theorem channel_profile_rejections
  (subscriptions : list Subscription) (username : option string)
  (req : Request) (w : World) :
  ((username = None \/ exists s, username = Some s /\ Js.trim s = "") ->
   getUserChannelprofile subscriptions username req w =
     (inl (ApiError 400 "Please provide username"), w)) /\
  (forall s, username = Some s -> Js.trim s <> "" ->
     (forall u, In u (db w) -> u_username u <> Js.toLowerCase s) ->
     getUserChannelprofile subscriptions username req w =
       (inl (ApiError 404 "Channel not found"), w)).
Proof.
  split.
  - intros H. rewrite channel_run.
    destruct H as [-> | (s & -> & Hs)]; cbn [option_map];
      [reflexivity|]. now rewrite Hs.
  - intros s -> Hs Hnone. rewrite channel_run. cbn [option_map Js.truthy].
    destruct (String.eqb_spec (Js.trim s) ""); [contradiction|]. cbn [negb].
    now rewrite (matchUsername_none s (db w) Hnone).
Qed.

(** X26. The channel profile of a stored handle: with stored handles
    pairwise different, asking for a handle in any letter case whose
    lower-case form is a stored handle answers 200 with that
    principal's public fields; [subscribersCount] is the number of
    subscriptions to that channel, [channelsSubscribedToCount] the
    number of subscriptions by it, and [isSubscribed] holds exactly when
    there is a subscription of the requesting principal to that
    channel. *)
Theorem channel_profile_of_stored_handle
  (subscriptions : list Subscription) (name : string)
  (req : Request) (w : World) (u : User) :
  NoDup (map u_username (db w)) ->
  In u (db w) ->
  u_username u = Js.toLowerCase name ->
  Js.trim name <> "" ->
  exists resp,
    getUserChannelprofile subscriptions (Some name) req w = (inr resp, w) /\
    cr_status resp = 200%Z /\
    p_id (cr_data resp) = u_id u /\
    p_username (cr_data resp) = u_username u /\
    p_subscribersCount (cr_data resp) =
      count_occ Nat.eq_dec (map sub_channel subscriptions) (u_id u) /\
    p_channelsSubscribedToCount (cr_data resp) =
      count_occ Nat.eq_dec (map sub_subscriber subscriptions) (u_id u) /\
    (p_isSubscribed (cr_data resp) = true <->
     exists viewer,
       user req = Some viewer /\
       In {| sub_subscriber := s_id viewer; sub_channel := u_id u |}
          subscriptions).
Proof.
  intros Hnd Hin Hname Htrim. rewrite channel_run.
  cbn [option_map Js.truthy].
  destruct (String.eqb_spec (Js.trim name) ""); [contradiction|]. cbn [negb].
  rewrite (matchUsername_unique name (db w) u Hnd Hin Hname).
  eexists. split; [reflexivity|]. cbn [cr_status cr_data].
  split; [reflexivity|]. split; [reflexivity|]. split; [reflexivity|].
  unfold channelDocument. cbn [p_subscribersCount p_channelsSubscribedToCount
                               p_isSubscribed].
  split; [|split].
  - unfold lookupSubscribers. clear.
    induction subscriptions as [|s l IH]; [reflexivity|]. cbn [filter map count_occ].
    destruct (Nat.eqb_spec (sub_channel s) (u_id u)) as [E|E];
      destruct (Nat.eq_dec (sub_channel s) (u_id u)); try contradiction;
      cbn [List.length]; now rewrite IH.
  - unfold lookupSubscribedTo. clear.
    induction subscriptions as [|s l IH]; [reflexivity|]. cbn [filter map count_occ].
    destruct (Nat.eqb_spec (sub_subscriber s) (u_id u)) as [E|E];
      destruct (Nat.eq_dec (sub_subscriber s) (u_id u)); try contradiction;
      cbn [List.length]; now rewrite IH.
  - destruct (user req) as [viewer|]; cbn [option_map].
    + rewrite existsb_exists. unfold lookupSubscribers. split.
      * intros (s & Hs & Hv). apply filter_In in Hs. destruct Hs as [Hs Hc].
        apply Nat.eqb_eq in Hv. apply Nat.eqb_eq in Hc.
        exists viewer. split; [reflexivity|].
        destruct s as [a b]. cbn in Hv, Hc. now subst.
      * intros (v & Hv & Hs). injection Hv as <-.
        eexists. split.
        -- apply filter_In. split; [exact Hs|]. apply Nat.eqb_refl.
        -- apply Nat.eqb_refl.
    + split; [discriminate|]. intros (v & Hv & _). discriminate.
Qed.

End ChannelFacts.

Lemma channel_profile_rejections_witness :
  getUserChannelprofile Channel.subscriptions (Some "   ") Channel.asBob
    Demo.world0
    = (inl (ApiError 400 "Please provide username"), Demo.world0) /\
  getUserChannelprofile Channel.subscriptions (Some "carol") Channel.asBob
    Demo.world0
    = (inl (ApiError 404 "Channel not found"), Demo.world0).
Proof.
  split.
  - apply (proj1 (channel_profile_rejections Channel.subscriptions
                    (Some "   ") Channel.asBob Demo.world0)).
    right. exists "   ". split; reflexivity.
  - apply (proj2 (channel_profile_rejections Channel.subscriptions
                    (Some "carol") Channel.asBob Demo.world0)
                 "carol" eq_refl).
    + discriminate.
    + intros u [<-|[<-|[]]]; discriminate.
Defined.

Lemma channel_profile_of_stored_handle_witness :
  exists resp,
    getUserChannelprofile Channel.subscriptions (Some "ALICE") Channel.asBob
      Demo.world0 = (inr resp, Demo.world0) /\
    p_subscribersCount (cr_data resp) = 2 /\
    p_isSubscribed (cr_data resp) = true.
Proof.
  edestruct (channel_profile_of_stored_handle Channel.subscriptions "ALICE"
               Channel.asBob Demo.world0 Demo.alice)
    as (resp & H & _ & _ & _ & Hcount & _ & Hsub).
  - vm_compute. repeat constructor; simpl; intuition discriminate.
  - left. reflexivity.
  - reflexivity.
  - discriminate.
  - exists resp. split; [exact H|]. split; [exact Hcount|].
    apply Hsub. exists (select Demo.bob). split; [reflexivity|].
    left. reflexivity.
Defined.

(* ===================================================================== *)
(** ** The envelope of the answers *)
(* ===================================================================== *)

Section Envelope.
Context {P : Platform}.
Import UserModel UserHooks.

(** X27. Whenever one of the handlers answers, the status of the
    response and the [statusCode] inside its body are both 200 and the
    body says [success: true]: no handler sends a failure as a
    response, failures only ever leave as thrown errors. *)
Theorem answers_are_200
  (now : Time) (file : option File) (req : Request) (w w' : World)
  (resp : Response) :
  registerUser req w = (inr resp, w') \/
  loginUser now req w = (inr resp, w') \/
  logOutUser req w = (inr resp, w') \/
  refreshAccessToken now req w = (inr resp, w') \/
  changeCurrentpassword req w = (inr resp, w') \/
  getCurrentUser req w = (inr resp, w') \/
  updateUserAvatar file req w = (inr resp, w') \/
  updateUserCoverImage file req w = (inr resp, w') ->
  status resp = 200%Z /\
  r_statusCode (json resp) = 200%Z /\
  r_success (json resp) = true.
Proof.
  intros [H|[H|[H|[H|[H|[H|[H|H]]]]]]].
  - pose proof (register_outcome req w) as O. rewrite H in O.
    destruct O as (? & ? & ? & ? & ? & ? & _ & _ & _ & _ & _ & _ & _ & _ & ->).
    repeat split.
  - rewrite login_run in H.
    destruct (negb _ && negb _); [discriminate|]. cbv zeta in H.
    destruct (find _ (db w)) as [u|]; [|discriminate].
    destruct (isPasswordCorrect u _) as [e|[|]]; try discriminate.
    destruct (generateAccessAndRefreshTokens _ _ _) as [[e|tokens] w2];
      [discriminate|].
    injection H as <- _. repeat split.
  - rewrite logout_run in H. destruct (user req); [|discriminate].
    injection H as <- _. repeat split.
  - rewrite refresh_run in H.
    destruct (cookies req) as [jar|]; [|discriminate].
    destruct (Js.nonEmpty _) as [incoming|]; [|discriminate].
    destruct (jwt_verify now incoming REFRESH_TOKEN_SECRET) as [e|[claim_id|]];
      try discriminate.
    cbv zeta in H.
    destruct (match claim_id with Some i => lookupId i (db w) | None => None end)
      as [u|]; [|discriminate].
    destruct (Js.strictEq _ _); [|discriminate].
    destruct (generateAccessAndRefreshTokens _ _ _) as [[e|tokens] w2];
      [discriminate|].
    injection H as <- _. repeat split.
  - rewrite change_password_run in H.
    destruct (user req) as [requester|]; [|discriminate]. cbv zeta in H.
    destruct (lookupId _ (db w)) as [u|]; [|discriminate].
    destruct (isPasswordCorrect u _) as [e|[|]]; try discriminate.
    destruct (b_newPassword (body req)); [|discriminate].
    injection H as <- _. repeat split.
  - unfold getCurrentUser, ret in H. injection H as <- _. repeat split.
  - rewrite (image_update_run updateUserAvatar set_avatar
               "AVATAR UPDATED SUCCESSFULLY" file req w) in H by (left; auto).
    destruct (Js.nonEmpty _); [|discriminate].
    destruct (cloudinary_upload _); [|discriminate].
    destruct (_ =? ""); [discriminate|].
    destruct (user req); [|discriminate]. cbv zeta in H.
    destruct (lookupId _ (db w)); injection H as <- _; repeat split.
  - rewrite (image_update_run updateUserCoverImage set_coverImage
               "COVER IMAGE UPDATED SUCCESSFULLY" file req w) in H
      by (right; auto).
    destruct (Js.nonEmpty _); [|discriminate].
    destruct (cloudinary_upload _); [|discriminate].
    destruct (_ =? ""); [discriminate|].
    destruct (user req); [|discriminate]. cbv zeta in H.
    destruct (lookupId _ (db w)); injection H as <- _; repeat split.
Qed.

End Envelope.

Lemma answers_are_200_witness :
  exists resp w',
    loginUser (P := Demo.platform) 0 Demo.aliceLogin Demo.world0
      = (inr resp, w') /\
    status resp = 200%Z /\
    r_success (json resp) = true.
Proof.
  eexists. eexists. split; [vm_compute; reflexivity|].
  edestruct (answers_are_200 (P := Demo.platform) 0 None Demo.aliceLogin
               Demo.world0) as (Hs & _ & Hok).
  - right. left. vm_compute. reflexivity.
  - split; [exact Hs|exact Hok].
Defined.
